(** * The RSO sample application (sample_apps/rso_sample_apps/python/main.py)

    A shallow embedding of the FastAPI sample that signs a player in with
    Riot Sign-On, exchanges the authorization code for a token set and shows
    two downstream JSON documents as HTML tables.

    The program is sequential glue around three outside collaborators: the
    process environment, the [requests] HTTP client and the JSON decoder that
    [Response.json] calls.  They are represented by a [World]: the handlers
    are programs of a small state-and-exception monad that reads the world,
    reads the global [CONFIG] dictionary and records every outbound call. *)

From Stdlib Require Import ZArith Ascii String List.
From stdpp Require Import base option list strings pretty gmap.

Local Open Scope string_scope.
Local Open Scope Z_scope.

Set Warnings "-register-all".

(** ** Python values *)

(** The Python objects the program handles: the values [json] decoding
    yields, also [None] and [str] for configuration entries.  A dictionary is
    the list of its items in iteration order, which is what [.items()]
    walks; JSON object keys are always strings.  A float carries the text
    Python prints for it: floating-point formatting is outside the model.
    An integer is one that the decoder has produced, so within any limit of
    digits that the interpreter sets. *)
Inductive pyval : Type :=
| PNone
| PBool (b : bool)
| PInt (n : Z)
| PFloat (shown : string)
| PStr (s : string)
| PList (l : list pyval)
| PDict (d : list (string * pyval)).

(** The character of a string literal's delimiter. *)
Definition dq : string := String (ascii_of_nat 34) "".
Definition bslash : string := String (ascii_of_nat 92) "".

Fixpoint contains_char (c : ascii) (s : string) : bool :=
  match s with
  | EmptyString => false
  | String c' s' => if Ascii.eqb c c' then true else contains_char c s'
  end.

Definition hex_digit (n : nat) : string :=
  String (ascii_of_nat (if Nat.ltb n 10 then 48 + n else 87 + n)) "".

(** One ASCII character of [repr] of a [str], for the delimiter [quote]:
    the delimiter and the backslash are escaped, tab, newline and carriage
    return get their letters, other control characters a two-digit
    hexadecimal escape; everything else stands for itself. *)
Definition repr_char (quote : ascii) (c : ascii) : string :=
  let n := nat_of_ascii c in
  if Ascii.eqb c quote || Nat.eqb n 92 then bslash +:+ String c ""
  else if Nat.eqb n 9 then bslash +:+ "t"
  else if Nat.eqb n 10 then bslash +:+ "n"
  else if Nat.eqb n 13 then bslash +:+ "r"
  else if Nat.ltb n 32 || Nat.eqb n 127
       then bslash +:+ "x" +:+ hex_digit (n / 16) +:+ hex_digit (n mod 16)
  else String c "".

(** A text is held as the bytes of its UTF-8 form, a lone surrogate as the
    three bytes that the same scheme gives it: concatenation of texts is
    concatenation of bytes.  [repr] works on code points, so it reads the
    sequences back. *)
Definition byte (c : ascii) : Z := Z.of_nat (nat_of_ascii c).

(** Lowercase hexadecimal in [digits] digits. *)
Fixpoint hex (digits : nat) (n : Z) : string :=
  match digits with
  | O => ""
  | S d => hex d (n / 16) +:+ hex_digit (Z.to_nat (n mod 16))
  end.

(** The code points from 128 on that [str.isprintable] refuses (the
    categories Other and Separator), as ranges with both ends included:
    the table of Unicode 14.0, which CPython 3.11 carries. *)
Definition unprintable : list (Z * Z) :=
  [(128, 160); (173, 173); (888, 889); (896, 899); (907, 907); (909, 909);
   (930, 930); (1328, 1328); (1367, 1368); (1419, 1420); (1424, 1424);
   (1480, 1487); (1515, 1518); (1525, 1541); (1564, 1564); (1757, 1757);
   (1806, 1807); (1867, 1868); (1970, 1983); (2043, 2044); (2094, 2095);
   (2111, 2111); (2140, 2141); (2143, 2143); (2155, 2159); (2191, 2199);
   (2274, 2274); (2436, 2436); (2445, 2446); (2449, 2450); (2473, 2473);
   (2481, 2481); (2483, 2485); (2490, 2491); (2501, 2502); (2505, 2506);
   (2511, 2518); (2520, 2523); (2526, 2526); (2532, 2533); (2559, 2560);
   (2564, 2564); (2571, 2574); (2577, 2578); (2601, 2601); (2609, 2609);
   (2612, 2612); (2615, 2615); (2618, 2619); (2621, 2621); (2627, 2630);
   (2633, 2634); (2638, 2640); (2642, 2648); (2653, 2653); (2655, 2661);
   (2679, 2688); (2692, 2692); (2702, 2702); (2706, 2706); (2729, 2729);
   (2737, 2737); (2740, 2740); (2746, 2747); (2758, 2758); (2762, 2762);
   (2766, 2767); (2769, 2783); (2788, 2789); (2802, 2808); (2816, 2816);
   (2820, 2820); (2829, 2830); (2833, 2834); (2857, 2857); (2865, 2865);
   (2868, 2868); (2874, 2875); (2885, 2886); (2889, 2890); (2894, 2900);
   (2904, 2907); (2910, 2910); (2916, 2917); (2936, 2945); (2948, 2948);
   (2955, 2957); (2961, 2961); (2966, 2968); (2971, 2971); (2973, 2973);
   (2976, 2978); (2981, 2983); (2987, 2989); (3002, 3005); (3011, 3013);
   (3017, 3017); (3022, 3023); (3025, 3030); (3032, 3045); (3067, 3071);
   (3085, 3085); (3089, 3089); (3113, 3113); (3130, 3131); (3141, 3141);
   (3145, 3145); (3150, 3156); (3159, 3159); (3163, 3164); (3166, 3167);
   (3172, 3173); (3184, 3190); (3213, 3213); (3217, 3217); (3241, 3241);
   (3252, 3252); (3258, 3259); (3269, 3269); (3273, 3273); (3278, 3284);
   (3287, 3292); (3295, 3295); (3300, 3301); (3312, 3312); (3315, 3327);
   (3341, 3341); (3345, 3345); (3397, 3397); (3401, 3401); (3408, 3411);
   (3428, 3429); (3456, 3456); (3460, 3460); (3479, 3481); (3506, 3506);
   (3516, 3516); (3518, 3519); (3527, 3529); (3531, 3534); (3541, 3541);
   (3543, 3543); (3552, 3557); (3568, 3569); (3573, 3584); (3643, 3646);
   (3676, 3712); (3715, 3715); (3717, 3717); (3723, 3723); (3748, 3748);
   (3750, 3750); (3774, 3775); (3781, 3781); (3783, 3783); (3790, 3791);
   (3802, 3803); (3808, 3839); (3912, 3912); (3949, 3952); (3992, 3992);
   (4029, 4029); (4045, 4045); (4059, 4095); (4294, 4294); (4296, 4300);
   (4302, 4303); (4681, 4681); (4686, 4687); (4695, 4695); (4697, 4697);
   (4702, 4703); (4745, 4745); (4750, 4751); (4785, 4785); (4790, 4791);
   (4799, 4799); (4801, 4801); (4806, 4807); (4823, 4823); (4881, 4881);
   (4886, 4887); (4955, 4956); (4989, 4991); (5018, 5023); (5110, 5111);
   (5118, 5119); (5760, 5760); (5789, 5791); (5881, 5887); (5910, 5918);
   (5943, 5951); (5972, 5983); (5997, 5997); (6001, 6001); (6004, 6015);
   (6110, 6111); (6122, 6127); (6138, 6143); (6158, 6158); (6170, 6175);
   (6265, 6271); (6315, 6319); (6390, 6399); (6431, 6431); (6444, 6447);
   (6460, 6463); (6465, 6467); (6510, 6511); (6517, 6527); (6572, 6575);
   (6602, 6607); (6619, 6621); (6684, 6685); (6751, 6751); (6781, 6782);
   (6794, 6799); (6810, 6815); (6830, 6831); (6863, 6911); (6989, 6991);
   (7039, 7039); (7156, 7163); (7224, 7226); (7242, 7244); (7305, 7311);
   (7355, 7356); (7368, 7375); (7419, 7423); (7958, 7959); (7966, 7967);
   (8006, 8007); (8014, 8015); (8024, 8024); (8026, 8026); (8028, 8028);
   (8030, 8030); (8062, 8063); (8117, 8117); (8133, 8133); (8148, 8149);
   (8156, 8156); (8176, 8177); (8181, 8181); (8191, 8207); (8232, 8239);
   (8287, 8303); (8306, 8307); (8335, 8335); (8349, 8351); (8385, 8399);
   (8433, 8447); (8588, 8591); (9255, 9279); (9291, 9311); (11124, 11125);
   (11158, 11158); (11508, 11512); (11558, 11558); (11560, 11564);
   (11566, 11567); (11624, 11630); (11633, 11646); (11671, 11679);
   (11687, 11687); (11695, 11695); (11703, 11703); (11711, 11711);
   (11719, 11719); (11727, 11727); (11735, 11735); (11743, 11743);
   (11870, 11903); (11930, 11930); (12020, 12031); (12246, 12271);
   (12284, 12288); (12352, 12352); (12439, 12440); (12544, 12548);
   (12592, 12592); (12687, 12687); (12772, 12783); (12831, 12831);
   (42125, 42127); (42183, 42191); (42540, 42559); (42744, 42751);
   (42955, 42959); (42962, 42962); (42964, 42964); (42970, 42993);
   (43053, 43055); (43066, 43071); (43128, 43135); (43206, 43213);
   (43226, 43231); (43348, 43358); (43389, 43391); (43470, 43470);
   (43482, 43485); (43519, 43519); (43575, 43583); (43598, 43599);
   (43610, 43611); (43715, 43738); (43767, 43776); (43783, 43784);
   (43791, 43792); (43799, 43807); (43815, 43815); (43823, 43823);
   (43884, 43887); (44014, 44015); (44026, 44031); (55204, 55215);
   (55239, 55242); (55292, 63743); (64110, 64111); (64218, 64255);
   (64263, 64274); (64280, 64284); (64311, 64311); (64317, 64317);
   (64319, 64319); (64322, 64322); (64325, 64325); (64451, 64466);
   (64912, 64913); (64968, 64974); (64976, 65007); (65050, 65055);
   (65107, 65107); (65127, 65127); (65132, 65135); (65141, 65141);
   (65277, 65280); (65471, 65473); (65480, 65481); (65488, 65489);
   (65496, 65497); (65501, 65503); (65511, 65511); (65519, 65531);
   (65534, 65535); (65548, 65548); (65575, 65575); (65595, 65595);
   (65598, 65598); (65614, 65615); (65630, 65663); (65787, 65791);
   (65795, 65798); (65844, 65846); (65935, 65935); (65949, 65951);
   (65953, 65999); (66046, 66175); (66205, 66207); (66257, 66271);
   (66300, 66303); (66340, 66348); (66379, 66383); (66427, 66431);
   (66462, 66462); (66500, 66503); (66518, 66559); (66718, 66719);
   (66730, 66735); (66772, 66775); (66812, 66815); (66856, 66863);
   (66916, 66926); (66939, 66939); (66955, 66955); (66963, 66963);
   (66966, 66966); (66978, 66978); (66994, 66994); (67002, 67002);
   (67005, 67071); (67383, 67391); (67414, 67423); (67432, 67455);
   (67462, 67462); (67505, 67505); (67515, 67583); (67590, 67591);
   (67593, 67593); (67638, 67638); (67641, 67643); (67645, 67646);
   (67670, 67670); (67743, 67750); (67760, 67807); (67827, 67827);
   (67830, 67834); (67868, 67870); (67898, 67902); (67904, 67967);
   (68024, 68027); (68048, 68049); (68100, 68100); (68103, 68107);
   (68116, 68116); (68120, 68120); (68150, 68151); (68155, 68158);
   (68169, 68175); (68185, 68191); (68256, 68287); (68327, 68330);
   (68343, 68351); (68406, 68408); (68438, 68439); (68467, 68471);
   (68498, 68504); (68509, 68520); (68528, 68607); (68681, 68735);
   (68787, 68799); (68851, 68857); (68904, 68911); (68922, 69215);
   (69247, 69247); (69290, 69290); (69294, 69295); (69298, 69375);
   (69416, 69423); (69466, 69487); (69514, 69551); (69580, 69599);
   (69623, 69631); (69710, 69713); (69750, 69758); (69821, 69821);
   (69827, 69839); (69865, 69871); (69882, 69887); (69941, 69941);
   (69960, 69967); (70007, 70015); (70112, 70112); (70133, 70143);
   (70162, 70162); (70207, 70271); (70279, 70279); (70281, 70281);
   (70286, 70286); (70302, 70302); (70314, 70319); (70379, 70383);
   (70394, 70399); (70404, 70404); (70413, 70414); (70417, 70418);
   (70441, 70441); (70449, 70449); (70452, 70452); (70458, 70458);
   (70469, 70470); (70473, 70474); (70478, 70479); (70481, 70486);
   (70488, 70492); (70500, 70501); (70509, 70511); (70517, 70655);
   (70748, 70748); (70754, 70783); (70856, 70863); (70874, 71039);
   (71094, 71095); (71134, 71167); (71237, 71247); (71258, 71263);
   (71277, 71295); (71354, 71359); (71370, 71423); (71451, 71452);
   (71468, 71471); (71495, 71679); (71740, 71839); (71923, 71934);
   (71943, 71944); (71946, 71947); (71956, 71956); (71959, 71959);
   (71990, 71990); (71993, 71994); (72007, 72015); (72026, 72095);
   (72104, 72105); (72152, 72153); (72165, 72191); (72264, 72271);
   (72355, 72367); (72441, 72703); (72713, 72713); (72759, 72759);
   (72774, 72783); (72813, 72815); (72848, 72849); (72872, 72872);
   (72887, 72959); (72967, 72967); (72970, 72970); (73015, 73017);
   (73019, 73019); (73022, 73022); (73032, 73039); (73050, 73055);
   (73062, 73062); (73065, 73065); (73103, 73103); (73106, 73106);
   (73113, 73119); (73130, 73439); (73465, 73647); (73649, 73663);
   (73714, 73726); (74650, 74751); (74863, 74863); (74869, 74879);
   (75076, 77711); (77811, 77823); (78895, 82943); (83527, 92159);
   (92729, 92735); (92767, 92767); (92778, 92781); (92863, 92863);
   (92874, 92879); (92910, 92911); (92918, 92927); (92998, 93007);
   (93018, 93018); (93026, 93026); (93048, 93052); (93072, 93759);
   (93851, 93951); (94027, 94030); (94088, 94094); (94112, 94175);
   (94181, 94191); (94194, 94207); (100344, 100351); (101590, 101631);
   (101641, 110575); (110580, 110580); (110588, 110588); (110591, 110591);
   (110883, 110927); (110931, 110947); (110952, 110959); (111356, 113663);
   (113771, 113775); (113789, 113791); (113801, 113807); (113818, 113819);
   (113824, 118527); (118574, 118575); (118599, 118607); (118724, 118783);
   (119030, 119039); (119079, 119080); (119155, 119162); (119275, 119295);
   (119366, 119519); (119540, 119551); (119639, 119647); (119673, 119807);
   (119893, 119893); (119965, 119965); (119968, 119969); (119971, 119972);
   (119975, 119976); (119981, 119981); (119994, 119994); (119996, 119996);
   (120004, 120004); (120070, 120070); (120075, 120076); (120085, 120085);
   (120093, 120093); (120122, 120122); (120127, 120127); (120133, 120133);
   (120135, 120137); (120145, 120145); (120486, 120487); (120780, 120781);
   (121484, 121498); (121504, 121504); (121520, 122623); (122655, 122879);
   (122887, 122887); (122905, 122906); (122914, 122914); (122917, 122917);
   (122923, 123135); (123181, 123183); (123198, 123199); (123210, 123213);
   (123216, 123535); (123567, 123583); (123642, 123646); (123648, 124895);
   (124903, 124903); (124908, 124908); (124911, 124911); (124927, 124927);
   (125125, 125126); (125143, 125183); (125260, 125263); (125274, 125277);
   (125280, 126064); (126133, 126208); (126270, 126463); (126468, 126468);
   (126496, 126496); (126499, 126499); (126501, 126502); (126504, 126504);
   (126515, 126515); (126520, 126520); (126522, 126522); (126524, 126529);
   (126531, 126534); (126536, 126536); (126538, 126538); (126540, 126540);
   (126544, 126544); (126547, 126547); (126549, 126550); (126552, 126552);
   (126554, 126554); (126556, 126556); (126558, 126558); (126560, 126560);
   (126563, 126563); (126565, 126566); (126571, 126571); (126579, 126579);
   (126584, 126584); (126589, 126589); (126591, 126591); (126602, 126602);
   (126620, 126624); (126628, 126628); (126634, 126634); (126652, 126703);
   (126706, 126975); (127020, 127023); (127124, 127135); (127151, 127152);
   (127168, 127168); (127184, 127184); (127222, 127231); (127406, 127461);
   (127491, 127503); (127548, 127551); (127561, 127567); (127570, 127583);
   (127590, 127743); (128728, 128732); (128749, 128751); (128765, 128767);
   (128884, 128895); (128985, 128991); (129004, 129007); (129009, 129023);
   (129036, 129039); (129096, 129103); (129114, 129119); (129160, 129167);
   (129198, 129199); (129202, 129279); (129620, 129631); (129646, 129647);
   (129653, 129655); (129661, 129663); (129671, 129679); (129709, 129711);
   (129723, 129727); (129734, 129743); (129754, 129759); (129768, 129775);
   (129783, 129791); (129939, 129939); (129995, 130031); (130042, 131071);
   (173792, 173823); (177977, 177983); (178206, 178207); (183970, 183983);
   (191457, 194559); (195102, 196607); (201547, 917759); (918000, 1114111)].

Definition isprintable (cp : Z) : bool :=
  negb (existsb (fun r : Z * Z => (r.1 <=? cp) && (cp <=? r.2)) unprintable).

(** A code point beyond ASCII in [repr]: itself, given by its [bytes], when
    it is printable; otherwise an escape of two, four or eight hexadecimal
    digits, by its size. *)
Definition repr_wide (cp : Z) (bytes : string) : string :=
  if isprintable cp then bytes
  else if cp <=? 255 then bslash +:+ "x" +:+ hex 2 cp
  else if cp <=? 65535 then bslash +:+ "u" +:+ hex 4 cp
  else bslash +:+ "U" +:+ hex 8 cp.

(** The characters of a text in [repr].  A byte that starts no sequence, or
    a sequence cut short, belongs to no text and is kept. *)
Fixpoint repr_chars (quote : ascii) (s : string) : string :=
  match s with
  | EmptyString => ""
  | String c s1 =>
      if byte c <? 128 then repr_char quote c +:+ repr_chars quote s1
      else if byte c <? 192 then String c "" +:+ repr_chars quote s1
      else
        match s1 with
        | EmptyString => String c ""
        | String c1 s2 =>
            if byte c <? 224
            then repr_wide ((byte c - 192) * 64 + (byte c1 - 128))
                           (String c (String c1 ""))
                   +:+ repr_chars quote s2
            else
              match s2 with
              | EmptyString => String c "" +:+ repr_chars quote s1
              | String c2 s3 =>
                  if byte c <? 240
                  then repr_wide ((byte c - 224) * 4096 + (byte c1 - 128) * 64
                                  + (byte c2 - 128))
                                 (String c (String c1 (String c2 "")))
                         +:+ repr_chars quote s3
                  else
                    match s3 with
                    | EmptyString => String c "" +:+ repr_chars quote s1
                    | String c3 s4 =>
                        repr_wide ((byte c - 240) * 262144 + (byte c1 - 128) * 4096
                                   + (byte c2 - 128) * 64 + (byte c3 - 128))
                                  (String c (String c1 (String c2 (String c3 ""))))
                          +:+ repr_chars quote s4
                    end
              end
        end
  end.

(** [repr] of a [str]: single quotes, unless the text holds a single quote
    and no double quote. *)
Definition repr_str (s : string) : string :=
  let quote :=
    if contains_char (ascii_of_nat 39) s && negb (contains_char (ascii_of_nat 34) s)
    then ascii_of_nat 34 else ascii_of_nat 39 in
  String quote "" +:+ repr_chars quote s +:+ String quote "".

(** [", ".join(parts)] *)
Fixpoint join_comma (parts : list string) : string :=
  match parts with
  | [] => ""
  | [p] => p
  | p :: rest => p +:+ ", " +:+ join_comma rest
  end.

(** [repr(v)] *)
Fixpoint py_repr (v : pyval) : string :=
  match v with
  | PNone => "None"
  | PBool true => "True"
  | PBool false => "False"
  | PInt n => pretty n
  | PFloat shown => shown
  | PStr s => repr_str s
  | PList l => "[" +:+ join_comma (map py_repr l) +:+ "]"
  | PDict d =>
      "{" +:+ join_comma (map (fun kv : string * pyval =>
                                 let (k, x) := kv in repr_str k +:+ ": " +:+ py_repr x) d)
          +:+ "}"
  end.

(** [str(v)], which is what a replacement field [{v}] of an f-string puts
    into the text: a [str] stands for itself, anything else is shown as
    [repr] shows it. *)
Definition py_str (v : pyval) : string :=
  match v with
  | PStr s => s
  | _ => py_repr v
  end.

(** ** Exceptions and results *)

Inductive exn : Type :=
| KeyError (key : string)          (* [d[key]] on an absent key *)
| AttributeError (attr : string)   (* [.items()] on a value that is no dict *)
| TypeError                        (* [+=] of a text to a value that is no str *)
| JSONDecodeError                  (* [Response.json] on a body that is no JSON *)
| RequestException.                (* the HTTP client gave up: no connection, timeout *)

Inductive result (A : Type) : Type :=
| Ok (a : A)
| Raise (e : exn).
Arguments Ok {A} a.
Arguments Raise {A} e.

(** ** The outside world *)

(** [HTTPBasicAuth(username, password)] *)
Record HTTPBasicAuth : Type := { username : pyval; password : pyval }.

(** An outbound call, as the arguments handed to [requests.post] or
    [requests.get]: form fields and headers are dictionaries, so lists of
    items in insertion order. *)
Inductive call : Type :=
| POST (url : pyval) (auth : HTTPBasicAuth) (data : list (string * pyval)) (timeout : Z)
| GET (url : string) (headers : list (string * pyval)) (timeout : Z).

(** What comes back, seen through the one method the program calls on it,
    [Response.json]: a body whose text is no JSON document (the empty body
    is one), or a body that decodes to a value.  The status code is never
    looked at. *)
Inductive response : Type :=
| Undecodable (text : string)
| Decodes (v : pyval).

Inductive reply : Type :=
| Fails                       (* [requests] raises: no connection, timeout *)
| Responds (r : response).

(** The process environment ([os.environ] after [load_dotenv]) and the
    network: the reply to a call may depend on the calls made before it. *)
Record World : Type := {
  environ : gmap string string;
  network : list call -> call -> reply
}.

(** The program's own state: the module-level [CONFIG] dictionary, and the
    outbound calls issued so far, oldest first. *)
Record State : Type := {
  CONFIG : gmap string pyval;
  calls : list call
}.

(** ** The monad of the program *)

Definition M (A : Type) : Type := World -> State -> result A * State.

Definition ret {A} (a : A) : M A := fun _ s => (Ok a, s).

Definition raise {A} (e : exn) : M A := fun _ s => (Raise e, s).

Definition bind {A B} (m : M A) (k : A -> M B) : M B :=
  fun w s =>
    match m w s with
    | (Ok a, s') => k a w s'
    | (Raise e, s') => (Raise e, s')
    end.

Notation "'do' x <- m ; k" := (bind m (fun x => k))
  (at level 10, x name, m at level 100, k at level 200).
Notation "m ;; k" := (bind m (fun _ => k))
  (at level 100, k at level 200, right associativity).

(** The value of a variable: [None] for a variable that is not set. *)
Definition env_value (e : gmap string string) (name : string) : pyval :=
  match e !! name with
  | Some v => PStr v
  | None => PNone
  end.

(** [os.getenv(name)] *)
Definition getenv (name : string) : M pyval :=
  fun w s => (Ok (env_value (environ w) name), s).

(** [CONFIG[key]] *)
Definition CONFIG_get (key : string) : M pyval :=
  fun _ s => (match CONFIG s !! key with
              | Some v => Ok v
              | None => Raise (KeyError key)
              end, s).

(** [CONFIG[key] = v] *)
Definition CONFIG_set (key : string) (v : pyval) : M unit :=
  fun _ s => (Ok tt, {| CONFIG := <[key := v]> (CONFIG s); calls := calls s |}).

(** A dictionary display [{k1: v1, ...}]: a later item overwrites. *)
Definition dict (items : list (string * pyval)) : gmap string pyval :=
  fold_left (fun m kv => <[kv.1 := kv.2]> m) items ∅.

(** [CONFIG = d] *)
Definition CONFIG_bind (d : gmap string pyval) : M unit :=
  fun _ s => (Ok tt, {| CONFIG := d; calls := calls s |}).

(** [a += b] for a text [b]: concatenation when [a] is a [str]. *)
Definition iadd (a : pyval) (b : string) : M pyval :=
  match a with
  | PStr s => ret (PStr (s +:+ b))
  | _ => raise TypeError
  end.

(** Issue a call: it is recorded, and the network answers it. *)
Definition request (c : call) : M response :=
  fun w s =>
    let s' := {| CONFIG := CONFIG s; calls := calls s ++ [c] |} in
    match network w (calls s) c with
    | Responds r => (Ok r, s')
    | Fails => (Raise RequestException, s')
    end.

(** [resp.json()] *)
Definition Response_json (resp : response) : M pyval :=
  match resp with
  | Decodes v => ret v
  | Undecodable _ => raise JSONDecodeError
  end.

(** [v.items()] *)
Definition items (v : pyval) : M (list (string * pyval)) :=
  match v with
  | PDict d => ret d
  | _ => raise (AttributeError "items")
  end.

(** ** Module level: configuration *)

Definition TIMEOUT : Z := 10.

(** Lines 19 to 38: the dictionary display, then the derived entries. *)
Definition startup : M unit :=
  do rso_base_url <- getenv "RSO_BASE_URL";
  do rso_client_id <- getenv "RSO_CLIENT_ID";
  do rso_client_secret <- getenv "RSO_CLIENT_SECRET";
  do app_base_url <- getenv "APP_BASE_URL";
  do app_callback_path <- getenv "APP_CALLBACK_PATH";
  do client_id <- getenv "CLIENT_ID";
  do response_type <- getenv "RESPONSE_TYPE";
  do scope <- getenv "SCOPE";
  do rgapi_token <- getenv "RGAPI_TOKEN";
  CONFIG_bind (dict [("RSO_BASE_URL", rso_base_url);
                     ("RSO_CLIENT_ID", rso_client_id);
                     ("RSO_CLIENT_SECRET", rso_client_secret);
                     ("APP_BASE_URL", app_base_url);
                     ("APP_CALLBACK_PATH", app_callback_path);
                     ("CLIENT_ID", client_id);
                     ("RESPONSE_TYPE", response_type);
                     ("SCOPE", scope);
                     ("RGAPI_TOKEN", rgapi_token)]) ;;
  do b <- CONFIG_get "RSO_BASE_URL";
  CONFIG_set "TOKEN_URL" (PStr (py_str b +:+ "/token")) ;;
  do a <- CONFIG_get "APP_BASE_URL";
  do p <- CONFIG_get "APP_CALLBACK_PATH";
  CONFIG_set "APP_CALLBACK_URL" (PStr (py_str a +:+ py_str p)) ;;
  do b <- CONFIG_get "RSO_BASE_URL";
  CONFIG_set "AUTHORIZE_URL" (PStr (py_str b +:+ "/authorize")) ;;
  do u <- CONFIG_get "AUTHORIZE_URL";
  CONFIG_set "SIGN_IN_URL" (PStr (py_str u)) ;;
  do cur <- CONFIG_get "SIGN_IN_URL";
  do v <- CONFIG_get "APP_CALLBACK_URL";
  do new <- iadd cur ("?redirect_uri=" +:+ py_str v);
  CONFIG_set "SIGN_IN_URL" new ;;
  do cur <- CONFIG_get "SIGN_IN_URL";
  do v <- CONFIG_get "RSO_CLIENT_ID";
  do new <- iadd cur ("&client_id=" +:+ py_str v);
  CONFIG_set "SIGN_IN_URL" new ;;
  do cur <- CONFIG_get "SIGN_IN_URL";
  do v <- CONFIG_get "RESPONSE_TYPE";
  do new <- iadd cur ("&response_type=" +:+ py_str v);
  CONFIG_set "SIGN_IN_URL" new ;;
  do cur <- CONFIG_get "SIGN_IN_URL";
  do v <- CONFIG_get "SCOPE";
  do new <- iadd cur ("&scope=" +:+ py_str v);
  CONFIG_set "SIGN_IN_URL" new.

(** The state the process starts in, before line 19. *)
Definition boot : State := {| CONFIG := ∅; calls := [] |}.

(** The state in which a request is served: the configuration that
    [startup] left, and the calls [tr] issued while serving earlier
    requests.  Whether the framework accepts the routes (line 49 hands it
    the callback path) is the framework's affair: where it does not, no
    request is served, and a statement about serving states says nothing. *)
Definition serving (w : World) (tr : list call) : State :=
  {| CONFIG := CONFIG (snd (startup w boot)); calls := tr |}.

(** ** The handlers *)

(** [GET /], lines 41 to 46. *)
Definition login : M string :=
  do url <- CONFIG_get "SIGN_IN_URL";
  do url' <- CONFIG_get "SIGN_IN_URL";
  ret ("
    <h1>login</h1>
    <a href=" +:+ dq +:+ py_str url +:+ dq +:+ ">Sign In --> " +:+ py_str url' +:+ "</a>
    ").

(** [GET <callback path>?code=...], lines 49 to 68.  [resp.json()] is
    evaluated once for the test against [None] and once more for the loop. *)
Definition oauth_callback (code : string) : M string :=
  do token_url <- CONFIG_get "TOKEN_URL";
  do client_id <- CONFIG_get "RSO_CLIENT_ID";
  do client_secret <- CONFIG_get "RSO_CLIENT_SECRET";
  do callback_url <- CONFIG_get "APP_CALLBACK_URL";
  do resp <- request (POST token_url
                           {| username := client_id; password := client_secret |}
                           [("grant_type", PStr "authorization_code");
                            ("code", PStr code);
                            ("redirect_uri", callback_url)]
                           TIMEOUT);
  let query_string := "" in
  do body <- Response_json resp;
  do query_string <-
    match body with
    | PNone => ret query_string
    | _ =>
        do body' <- Response_json resp;
        do kvs <- items body';
        ret (fold_left (fun query_string kv =>
                          query_string +:+ (kv.1 +:+ "=" +:+ py_str kv.2 +:+ "&"))
                       kvs query_string)
    end;
  ret ("<script>window.location.href = " +:+ dq +:+ "/show-data/?" +:+ query_string
         +:+ dq +:+ ";</script>").

(** Lines 71 to 105. *)
Definition json2table (json : pyval) : M string :=
  let style := "
            <style type=" +:+ dq +:+ "text/css" +:+ dq +:+ ">
        .tg  {border-collapse:collapse;border-spacing:0;}
        .tg td{border-color:black;border-style:solid;border-width:1px;font-family:Arial, sans-serif;font-size:14px;
        overflow:hidden;padding:10px 5px;word-break:normal;}
        .tg th{border-color:black;border-style:solid;border-width:1px;font-family:Arial, sans-serif;font-size:14px;
        font-weight:normal;overflow:hidden;padding:10px 5px;word-break:normal;}
        .tg .tg-0lax{text-align:left;vertical-align:top}
        </style>" in
  let html := "
        <table class=" +:+ dq +:+ "tg" +:+ dq +:+ ">
        <thead>
        <tr>
            <th class=" +:+ dq +:+ "tg-0lax" +:+ dq +:+ ">key</th>
            <th class=" +:+ dq +:+ "tg-0lax" +:+ dq +:+ ">value</th>
        </tr>
        </thead>

        <tbody>" in
  do kvs <- items json;
  let html :=
    fold_left (fun html kv =>
                 html +:+ ("
                <tr>
                    <td class=" +:+ dq +:+ "tg-0lax" +:+ dq +:+ ">" +:+ kv.1 +:+ "</td>
                    <td class=" +:+ dq +:+ "tg-0lax" +:+ dq +:+ ">" +:+ py_str kv.2 +:+ "<br></td>
                </tr>"))
              kvs html in
  let html := html +:+ "
    </tbody>
    </table>
        " in
  ret (style +:+ html).

(** Lines 131 to 139. *)
Definition get_account_data (access_token : string) : M pyval :=
  do resp <- request (GET "https://americas.api.riotgames.com/riot/account/v1/accounts/me"
                          [("Authorization", PStr ("Bearer " +:+ access_token))]
                          TIMEOUT);
  Response_json resp.

(** Lines 142 to 150. *)
Definition get_champion_rotation_data (token : pyval) : M pyval :=
  do resp <- request (GET "https://na1.api.riotgames.com/lol/platform/v3/champion-rotations"
                          [("X-Riot-Token", token)]
                          TIMEOUT);
  Response_json resp.

(** [GET /show-data/?access_token=...], lines 108 to 128. *)
Definition show_data (access_token : string) : M string :=
  do account_data <- get_account_data access_token;
  do account_table <- json2table account_data;
  let account_html := "
            <h2>account data queried using RSO Access Token:</h2>
            <p>" +:+ account_table +:+ "</p>
        " in
  do rgapi_token <- CONFIG_get "RGAPI_TOKEN";
  do champion_rotation_data <- get_champion_rotation_data rgapi_token;
  do champion_rotation_table <- json2table champion_rotation_data;
  let champion_rotation_html := "
            <h2>champion rotation data queried using RGAPI token</h2>
            <p>" +:+ champion_rotation_table +:+ "</p>
        " in
  ret ("
        " +:+ account_html +:+ "
        " +:+ champion_rotation_html +:+ "
    ").

(** ** Vocabulary of the statements *)

(** Concatenation of a list of texts. *)
Definition join (parts : list string) : string := foldr String.append "" parts.

(** The page of the callback handler that sends the browser to [target]. *)
Definition redirect_page (target : string) : string :=
  "<script>window.location.href = " +:+ dq +:+ target +:+ dq +:+ ";</script>".

(** The piece of query string that one item of the token object gives. *)
Definition fragment (kv : string * pyval) : string :=
  kv.1 +:+ "=" +:+ py_str kv.2 +:+ "&".

Definition query (d : list (string * pyval)) : string := join (map fragment d).

(** The page of the login handler for a sign-in URL. *)
Definition login_page (url : string) : string :=
  "
    <h1>login</h1>
    <a href=" +:+ dq +:+ url +:+ dq +:+ ">Sign In --> " +:+ url +:+ "</a>
    ".

(** The three outbound calls of the program. *)
Definition token_call (token_url client_id client_secret callback_url : pyval)
    (code : string) : call :=
  POST token_url {| username := client_id; password := client_secret |}
       [("grant_type", PStr "authorization_code");
        ("code", PStr code);
        ("redirect_uri", callback_url)]
       TIMEOUT.

Definition account_call (access_token : string) : call :=
  GET "https://americas.api.riotgames.com/riot/account/v1/accounts/me"
      [("Authorization", PStr ("Bearer " +:+ access_token))] TIMEOUT.

Definition rotation_call (static_token : pyval) : call :=
  GET "https://na1.api.riotgames.com/lol/platform/v3/champion-rotations"
      [("X-Riot-Token", static_token)] TIMEOUT.

(** What the callback handler makes of the token endpoint's reply. *)
Definition callback_outcome (r : reply) : result string :=
  match r with
  | Fails => Raise RequestException
  | Responds (Undecodable _) => Raise JSONDecodeError
  | Responds (Decodes PNone) => Ok (redirect_page "/show-data/?")
  | Responds (Decodes (PDict d)) => Ok (redirect_page ("/show-data/?" +:+ query d))
  | Responds (Decodes _) => Raise (AttributeError "items")
  end.

(** The pieces of the table that [json2table] writes. *)
Definition table_style : string := "
            <style type=" +:+ dq +:+ "text/css" +:+ dq +:+ ">
        .tg  {border-collapse:collapse;border-spacing:0;}
        .tg td{border-color:black;border-style:solid;border-width:1px;font-family:Arial, sans-serif;font-size:14px;
        overflow:hidden;padding:10px 5px;word-break:normal;}
        .tg th{border-color:black;border-style:solid;border-width:1px;font-family:Arial, sans-serif;font-size:14px;
        font-weight:normal;overflow:hidden;padding:10px 5px;word-break:normal;}
        .tg .tg-0lax{text-align:left;vertical-align:top}
        </style>".

Definition table_head : string := "
        <table class=" +:+ dq +:+ "tg" +:+ dq +:+ ">
        <thead>
        <tr>
            <th class=" +:+ dq +:+ "tg-0lax" +:+ dq +:+ ">key</th>
            <th class=" +:+ dq +:+ "tg-0lax" +:+ dq +:+ ">value</th>
        </tr>
        </thead>

        <tbody>".

Definition table_row (key value : string) : string := "
                <tr>
                    <td class=" +:+ dq +:+ "tg-0lax" +:+ dq +:+ ">" +:+ key +:+ "</td>
                    <td class=" +:+ dq +:+ "tg-0lax" +:+ dq +:+ ">" +:+ value +:+ "<br></td>
                </tr>".

Definition table_foot : string := "
    </tbody>
    </table>
        ".

Definition table_of (d : list (string * pyval)) : string :=
  table_style +:+ table_head
    +:+ join (map (fun kv => table_row kv.1 (py_str kv.2)) d) +:+ table_foot.

(** The page of the display handler for the two tables. *)
Definition data_page (account_table rotation_table : string) : string :=
  "
        " +:+ ("
            <h2>account data queried using RSO Access Token:</h2>
            <p>" +:+ account_table +:+ "</p>
        ") +:+ "
        " +:+ ("
            <h2>champion rotation data queried using RGAPI token</h2>
            <p>" +:+ rotation_table +:+ "</p>
        ") +:+ "
    ".

(** What a lookup makes of the reply: the decoded object's items, or the
    exception that ends the handler. *)
Definition table_outcome (r : reply) : result (list (string * pyval)) :=
  match r with
  | Fails => Raise RequestException
  | Responds (Undecodable _) => Raise JSONDecodeError
  | Responds (Decodes (PDict d)) => Ok d
  | Responds (Decodes _) => Raise (AttributeError "items")
  end.

(** The derived texts, from the environment [e]. *)
Definition token_url (e : gmap string string) : string :=
  py_str (env_value e "RSO_BASE_URL") +:+ "/token".

Definition callback_url (e : gmap string string) : string :=
  py_str (env_value e "APP_BASE_URL") +:+ py_str (env_value e "APP_CALLBACK_PATH").

Definition authorize_url (e : gmap string string) : string :=
  py_str (env_value e "RSO_BASE_URL") +:+ "/authorize".

Definition sign_in_url (e : gmap string string) : string :=
  authorize_url e
    +:+ "?redirect_uri=" +:+ callback_url e
    +:+ "&client_id=" +:+ py_str (env_value e "RSO_CLIENT_ID")
    +:+ "&response_type=" +:+ py_str (env_value e "RESPONSE_TYPE")
    +:+ "&scope=" +:+ py_str (env_value e "SCOPE").

(** The token request of the callback handler under the environment [e]. *)
Definition token_call_of (e : gmap string string) (code : string) : call :=
  token_call (PStr (token_url e)) (env_value e "RSO_CLIENT_ID")
             (env_value e "RSO_CLIENT_SECRET") (PStr (callback_url e)) code.

(** The names read from the environment. *)
Definition settings : list string :=
  ["RSO_BASE_URL"; "RSO_CLIENT_ID"; "RSO_CLIENT_SECRET"; "APP_BASE_URL";
   "APP_CALLBACK_PATH"; "CLIENT_ID"; "RESPONSE_TYPE"; "SCOPE"; "RGAPI_TOKEN"].

(** [cfg] holds every setting as the environment [e] has it, and the four
    derived entries. *)
Definition resolved (e : gmap string string) (cfg : gmap string pyval) : Prop :=
  Forall (fun name => cfg !! name = Some (env_value e name)) settings /\
  cfg !! "TOKEN_URL" = Some (PStr (token_url e)) /\
  cfg !! "APP_CALLBACK_URL" = Some (PStr (callback_url e)) /\
  cfg !! "AUTHORIZE_URL" = Some (PStr (authorize_url e)) /\
  cfg !! "SIGN_IN_URL" = Some (PStr (sign_in_url e)).

(** What is seen of a handler from outside: what it returns or raises, and
    the calls it has issued by then. *)
Definition outcome {A} (r : result A * State) : result A * list call :=
  (fst r, calls (snd r)).

(** A program that leaves the configuration as it found it. *)
Definition keeps_config {A} (m : M A) : Prop :=
  forall w s, CONFIG (snd (m w s)) = CONFIG s.

(** The timeout a call is issued with. *)
Definition timeout_of (c : call) : Z :=
  match c with
  | POST _ _ _ timeout => timeout
  | GET _ _ timeout => timeout
  end.

(** The entries that startup derives, beside the settings. *)
Definition derived : list string :=
  ["TOKEN_URL"; "APP_CALLBACK_URL"; "AUTHORIZE_URL"; "SIGN_IN_URL"].

(** ** Sample worlds *)

Definition sample_environ : gmap string string :=
  list_to_map
    [("RSO_BASE_URL", "https://auth.riotgames.com");
     ("RSO_CLIENT_ID", "sample-client");
     ("RSO_CLIENT_SECRET", "sample-secret");
     ("APP_BASE_URL", "http://localhost:3000");
     ("APP_CALLBACK_PATH", "/oauth-callback");
     ("CLIENT_ID", "unused-client");
     ("RESPONSE_TYPE", "code");
     ("SCOPE", "openid");
     ("RGAPI_TOKEN", "RGAPI-sample")].

(** The sample environment with another CLIENT_ID. *)
Definition other_environ : gmap string string :=
  <["CLIENT_ID" := "another-client"]> sample_environ.

(** The sample environment with another client secret, and with another
    static token. *)
Definition other_secret_environ : gmap string string :=
  <["RSO_CLIENT_SECRET" := "another-secret"]> sample_environ.

Definition other_token_environ : gmap string string :=
  <["RGAPI_TOKEN" := "RGAPI-other"]> sample_environ.

(** A world whose network gives the same reply to every call. *)
Definition world_of (e : gmap string string) (r : reply) : World :=
  {| environ := e; network := fun _ _ => r |}.

Definition answering (r : reply) : World := world_of sample_environ r.

(** The text of one no-break space, U+00A0: a character that is not
    printable. *)
Definition nbsp : string := String (ascii_of_nat 194) (String (ascii_of_nat 160) "").

(** An object with values of every kind. *)
Definition mixed_token : list (string * pyval) :=
  [("access_token", PStr "a b&c");
   ("expires_in", PInt 3600);
   ("refresh_token", PNone);
   ("ok", PBool true);
   ("ratio", PFloat "0.5");
   ("scopes", PList [PStr "openid"; PStr nbsp; PInt (-1)]);
   ("extra", PDict [("it's", PBool false)])].


(** The token object of the specification's example. *)
Definition sample_token : list (string * pyval) :=
  [("access_token", PStr "abc"); ("token_type", PStr "bearer")].

(** ** Texts *)

Lemma append_assoc (a b c : string) : (a +:+ b) +:+ c = a +:+ (b +:+ c).
Proof.
  induction a as [|x a IH]; [reflexivity |].
  change (String x ((a +:+ b) +:+ c) = String x (a +:+ b +:+ c)). by rewrite IH.
Qed.

Lemma append_empty_r (a : string) : a +:+ "" = a.
Proof.
  induction a as [|x a IH]; [reflexivity |].
  change (String x (a +:+ "") = String x a). by rewrite IH.
Qed.

Lemma join_app (l1 l2 : list string) : join (l1 ++ l2) = join l1 +:+ join l2.
Proof.
  induction l1 as [|p l1 IH]; [reflexivity |].
  change (p +:+ join (l1 ++ l2) = (p +:+ join l1) +:+ join l2).
  by rewrite IH, append_assoc.
Qed.

(** A loop that appends one piece per item builds the concatenation of the
    pieces, in the order of the items. *)
Lemma loop_appends {A} (piece : A -> string) (l : list A) (acc : string) :
  fold_left (fun text x => text +:+ piece x) l acc = acc +:+ join (map piece l).
Proof.
  revert acc. induction l as [|x l IH]; intros acc.
  - cbn. by rewrite append_empty_r.
  - change (fold_left (fun text x => text +:+ piece x) l (acc +:+ piece x)
            = acc +:+ (piece x +:+ join (map piece l))).
    by rewrite IH, append_assoc.
Qed.

Lemma query_app (d1 d2 : list (string * pyval)) : query (d1 ++ d2) = query d1 +:+ query d2.
Proof. unfold query. by rewrite map_app, join_app. Qed.

Lemma query_cons (kv : string * pyval) (d : list (string * pyval)) :
  query (kv :: d) = fragment kv +:+ query d.
Proof. reflexivity. Qed.

(** ** Running the monad *)

Lemma run_bind {A B} (m : M A) (k : A -> M B) w s a s' r :
  m w s = (Ok a, s') -> k a w s' = r -> bind m k w s = r.
Proof. intros H1 H2. unfold bind. by rewrite H1. Qed.

Lemma run_bind_raise {A B} (m : M A) (k : A -> M B) w s e s' :
  m w s = (Raise e, s') -> bind m k w s = (Raise e, s').
Proof. intros H1. unfold bind. by rewrite H1. Qed.

Lemma bind_assoc {A B C} (m : M A) (f : A -> M B) (g : B -> M C) w s :
  bind (bind m f) g w s = bind m (fun x => bind (f x) g) w s.
Proof. unfold bind. by destruct (m w s) as [[a|ex] s']. Qed.

Lemma CONFIG_get_ok key w s v :
  CONFIG s !! key = Some v -> CONFIG_get key w s = (Ok v, s).
Proof. intros H. unfold CONFIG_get. by rewrite H. Qed.

Lemma request_run c w s :
  request c w s =
    (match network w (calls s) c with
     | Responds r => Ok r
     | Fails => Raise RequestException
     end, {| CONFIG := CONFIG s; calls := calls s ++ [c] |}).
Proof. unfold request. by destruct (network w (calls s) c). Qed.

(** A lookup in a dictionary built by writes under literal keys. *)
Ltac lookup_tac :=
  first
    [ eassumption
    | unfold dict; cbn [CONFIG fold_left fst snd];
      repeat first [ rewrite lookup_insert_eq | rewrite lookup_insert_ne by discriminate ];
      reflexivity ].

(** One statement of a program whose outcome is determined. *)
Ltac step :=
  lazymatch goal with
  | |- bind (CONFIG_get _) _ _ _ = _ =>
      eapply run_bind; [ apply CONFIG_get_ok; lookup_tac | ]
  | |- bind _ _ _ _ = _ => eapply run_bind; [ reflexivity | ]
  end; cbn [CONFIG calls].

(** ** The configuration after startup *)

Lemma resolved_setting e cfg name :
  resolved e cfg -> In name settings -> cfg !! name = Some (env_value e name).
Proof. intros [H _] Hin. rewrite Forall_forall in H. apply H. by apply list_elem_of_In. Qed.

(** Startup never raises, issues no call, and leaves a resolved
    configuration. *)
Lemma startup_resolves w :
  exists cfg,
    startup w boot = (Ok tt, {| CONFIG := cfg; calls := [] |}) /\
    resolved (environ w) cfg.
Proof.
  eexists. split.
  - unfold startup. repeat step. reflexivity.
  - unfold resolved, settings, sign_in_url, token_url, callback_url, authorize_url.
    repeat match goal with
           | |- _ /\ _ => split
           | |- Forall _ _ => constructor
           end; try lookup_tac.
    unfold dict; cbn [CONFIG fold_left fst snd].
    rewrite lookup_insert_eq. cbn [py_str]. by rewrite !append_assoc.
Qed.

Lemma serving_resolved w tr : resolved (environ w) (CONFIG (serving w tr)).
Proof.
  destruct (startup_resolves w) as (cfg & Hrun & Hcfg).
  unfold serving. by rewrite Hrun.
Qed.

Lemma serving_calls w tr : calls (serving w tr) = tr.
Proof. reflexivity. Qed.

(** ** The handlers, run *)

Section Handlers.

Variable e : gmap string string.
Variable w : World.
Variable s : State.
Hypothesis Hcfg : resolved e (CONFIG s).

Local Ltac setting :=
  apply (resolved_setting e _ _ Hcfg); unfold settings; cbn; tauto.

Lemma login_run : login w s = (Ok (login_page (sign_in_url e)), s).
Proof.
  destruct Hcfg as (_ & _ & _ & _ & Hurl).
  unfold login. repeat step. reflexivity.
Qed.

Lemma json2table_run (v : pyval) :
  json2table v w s =
    (match v with
     | PDict d => Ok (table_of d)
     | _ => Raise (AttributeError "items")
     end, s).
Proof.
  destruct v; try reflexivity.
  unfold json2table, bind, items, ret, table_of.
  rewrite (loop_appends (fun kv : string * pyval => table_row kv.1 (py_str kv.2))).
  by rewrite !append_assoc.
Qed.

Lemma oauth_callback_run (code : string) :
  oauth_callback code w s =
    (callback_outcome (network w (calls s) (token_call_of e code)),
     {| CONFIG := CONFIG s; calls := calls s ++ [token_call_of e code] |}).
Proof.
  assert (CONFIG s !! "RSO_CLIENT_ID" = Some (env_value e "RSO_CLIENT_ID")) by setting.
  assert (CONFIG s !! "RSO_CLIENT_SECRET" = Some (env_value e "RSO_CLIENT_SECRET"))
    by setting.
  destruct Hcfg as (_ & Htok & Hcb & _ & _).
  unfold oauth_callback. do 4 step.
  change (POST _ _ _ _) with (token_call_of e code).
  unfold bind at 1. rewrite request_run.
  destruct (network w (calls s) (token_call_of e code)) as [|[text|v]];
    [reflexivity | reflexivity |].
  destruct v; try reflexivity.
  unfold callback_outcome, bind, Response_json, items, ret, redirect_page, query.
  by rewrite (loop_appends fragment), !append_assoc.
Qed.

End Handlers.

Lemma lookup_run (c : call) w s :
  bind (request c) Response_json w s =
    (match network w (calls s) c with
     | Fails => Raise RequestException
     | Responds (Undecodable _) => Raise JSONDecodeError
     | Responds (Decodes v) => Ok v
     end, {| CONFIG := CONFIG s; calls := calls s ++ [c] |}).
Proof.
  unfold bind. rewrite request_run.
  by destruct (network w (calls s) c) as [|[text|v]].
Qed.

Lemma table_run (c : call) w s :
  bind (bind (request c) Response_json) json2table w s =
    (match table_outcome (network w (calls s) c) with
     | Ok d => Ok (table_of d)
     | Raise ex => Raise ex
     end, {| CONFIG := CONFIG s; calls := calls s ++ [c] |}).
Proof.
  unfold bind at 1. rewrite lookup_run.
  destruct (network w (calls s) c) as [|[text|v]]; try reflexivity.
  rewrite json2table_run. by destruct v.
Qed.

Lemma show_data_run e w s (access_token : string) :
  resolved e (CONFIG s) ->
  let c1 := account_call access_token in
  let c2 := rotation_call (env_value e "RGAPI_TOKEN") in
  show_data access_token w s =
    match table_outcome (network w (calls s) c1) with
    | Raise ex => (Raise ex, {| CONFIG := CONFIG s; calls := calls s ++ [c1] |})
    | Ok d1 =>
        (match table_outcome (network w (calls s ++ [c1]) c2) with
         | Ok d2 => Ok (data_page (table_of d1) (table_of d2))
         | Raise ex => Raise ex
         end, {| CONFIG := CONFIG s; calls := (calls s ++ [c1]) ++ [c2] |})
    end.
Proof.
  intros Hcfg c1 c2.
  assert (Htok : CONFIG s !! "RGAPI_TOKEN" = Some (env_value e "RGAPI_TOKEN")).
  { apply (resolved_setting e _ _ Hcfg). unfold settings. cbn. tauto. }
  unfold show_data, get_account_data. change (GET _ _ _) with c1.
  rewrite <- (bind_assoc (bind (request c1) Response_json) json2table).
  unfold bind at 1. rewrite table_run.
  destruct (table_outcome (network w (calls s) c1)) as [d1|ex]; [| reflexivity].
  step. unfold get_champion_rotation_data. change (GET _ _ _) with c2.
  rewrite <- (bind_assoc (bind (request c2) Response_json) json2table).
  unfold bind at 1. rewrite table_run. cbn [CONFIG calls].
  by destruct (table_outcome (network w (calls s ++ [c1]) c2)) as [d2|ex].
Qed.

(** ** Handlers only read the configuration *)

Lemma keeps_ret {A} (a : A) : keeps_config (ret a).
Proof. by intros w s. Qed.

Lemma keeps_raise {A} (ex : exn) : keeps_config (@raise A ex).
Proof. by intros w s. Qed.

Lemma keeps_CONFIG_get key : keeps_config (CONFIG_get key).
Proof. by intros w s. Qed.

Lemma keeps_request c : keeps_config (request c).
Proof. intros w s. by rewrite request_run. Qed.

Lemma keeps_Response_json resp : keeps_config (Response_json resp).
Proof. destruct resp; [apply keeps_raise | apply keeps_ret]. Qed.

Lemma keeps_items v : keeps_config (items v).
Proof. destruct v; first [apply keeps_ret | apply keeps_raise]. Qed.

Lemma keeps_bind {A B} (m : M A) (k : A -> M B) :
  keeps_config m -> (forall a, keeps_config (k a)) -> keeps_config (bind m k).
Proof.
  intros Hm Hk w s. unfold bind. specialize (Hm w s).
  destruct (m w s) as [[a|ex] s']; cbn [snd] in *; [| exact Hm].
  by rewrite Hk.
Qed.

Create HintDb keeps discriminated.
#[local] Hint Resolve keeps_ret keeps_raise keeps_CONFIG_get keeps_request
  keeps_Response_json keeps_items : keeps.

Ltac keeps :=
  repeat first
    [ apply keeps_bind; [ | intros ? ]
    | solve [ auto with keeps ] ].

Lemma keeps_login : keeps_config login.
Proof. unfold login. keeps. Qed.

Lemma keeps_json2table v : keeps_config (json2table v).
Proof. unfold json2table. keeps. Qed.

Lemma keeps_oauth_callback code : keeps_config (oauth_callback code).
Proof.
  unfold oauth_callback. keeps.
  match goal with a : pyval |- _ => destruct a end; keeps.
Qed.

Lemma keeps_show_data access_token : keeps_config (show_data access_token).
Proof.
  unfold show_data, get_account_data, get_champion_rotation_data.
  keeps; apply keeps_json2table.
Qed.

(** ** The model at work *)

Example py_str_of_text : py_str (PStr "a'b") = "a'b".
Proof. reflexivity. Qed.

Example py_str_of_ids : py_str (PList [PInt 1; PInt 22; PInt (-3)]) = "[1, 22, -3]".
Proof. reflexivity. Qed.

Example py_str_of_nested :
  py_str (PDict [("ok", PBool true); ("who", PStr "x"); ("none", PNone)])
  = "{'ok': True, 'who': 'x', 'none': None}".
Proof. reflexivity. Qed.

Example sample_sign_in_url :
  CONFIG (serving (answering Fails) []) !! "SIGN_IN_URL"
  = Some (PStr "https://auth.riotgames.com/authorize?redirect_uri=http://localhost:3000/oauth-callback&client_id=sample-client&response_type=code&scope=openid").
Proof. vm_compute. reflexivity. Qed.

(** An unset variable is [None], and an f-string shows it as such. *)
Example unset_sign_in_url :
  CONFIG (serving (world_of ∅ Fails) []) !! "SIGN_IN_URL"
  = Some (PStr "None/authorize?redirect_uri=NoneNone&client_id=None&response_type=None&scope=None").
Proof. vm_compute. reflexivity. Qed.

Example sample_display :
  fst (show_data "token"
         (answering (Responds (Decodes (PDict [("gameName", PStr "<b>&")]))))
         (serving (answering Fails) []))
  = Ok (data_page (table_of [("gameName", PStr "<b>&")])
                  (table_of [("gameName", PStr "<b>&")])).
Proof. vm_compute. reflexivity. Qed.

(** The callback handler in a serving state: the outcome is decided by the
    reply to its one call. *)
Lemma callback_served w tr code :
  oauth_callback code w (serving w tr) =
    (callback_outcome (network w tr (token_call_of (environ w) code)),
     {| CONFIG := CONFIG (serving w tr);
        calls := tr ++ [token_call_of (environ w) code] |}).
Proof. by rewrite (oauth_callback_run _ _ _ (serving_resolved w tr)). Qed.

(** ** The claims *)

(** C1 (as amended).  When the body of the token endpoint's reply decodes to
    JSON [null] or to the empty object, the callback handler returns the
    script whose redirect target is exactly [/show-data/?].  A body that is
    no JSON document, the empty body among them, makes [resp.json()] raise:
    the handler ends with that exception and returns no page. *)
Theorem callback_empty_redirect w tr code :
  let r := network w tr (token_call_of (environ w) code) in
  let page := fst (oauth_callback code w (serving w tr)) in
  (r = Responds (Decodes PNone) \/ r = Responds (Decodes (PDict [])) ->
   page = Ok (redirect_page "/show-data/?")) /\
  (forall text, r = Responds (Undecodable text) -> page = Raise JSONDecodeError).
Proof.
  intros r page. subst r page. rewrite callback_served. cbn [fst]. split.
  - intros [-> | ->]; reflexivity.
  - intros text ->. reflexivity.
Qed.

Lemma callback_empty_redirect_witness :
  fst (oauth_callback "code" (answering (Responds (Decodes (PDict []))))
         (serving (answering (Responds (Decodes (PDict [])))) []))
  = Ok (redirect_page "/show-data/?").
Proof.
  apply (proj1 (callback_empty_redirect
                  (answering (Responds (Decodes (PDict [])))) [] "code")).
  right. reflexivity.
Defined.

(** C1 as stated fails: a token endpoint that answers with an empty body
    gets no redirect page, the handler raises. *)
Lemma callback_empty_body_raises :
  network (answering (Responds (Undecodable ""))) []
          (token_call_of sample_environ "code") = Responds (Undecodable "") /\
  fst (oauth_callback "code" (answering (Responds (Undecodable "")))
         (serving (answering (Responds (Undecodable ""))) []))
  = Raise JSONDecodeError /\
  fst (oauth_callback "code" (answering (Responds (Undecodable "")))
         (serving (answering (Responds (Undecodable ""))) []))
  <> Ok (redirect_page "/show-data/?").
Proof.
  split; [reflexivity |].
  rewrite callback_served. cbn [fst].
  split; [reflexivity | discriminate].
Qed.

(** C2.  When the body of the token endpoint's reply decodes to a JSON object,
    the callback handler's redirect target is [/show-data/?] followed by one
    [key=value&] piece per key, in the object's iteration order, the value
    as [str] shows it; for the object with [access_token] "abc" and
    [token_type] "bearer" the target is exactly
    [/show-data/?access_token=abc&token_type=bearer&].  A value that is no
    text goes in as Python prints it: [None], [True], a number in decimal, a
    list or an object with its texts quoted and escaped. *)
Theorem callback_query_string w tr code d :
  network w tr (token_call_of (environ w) code) = Responds (Decodes (PDict d)) ->
  fst (oauth_callback code w (serving w tr))
  = Ok (redirect_page
          ("/show-data/?"
             +:+ join (map (fun kv => kv.1 +:+ "=" +:+ py_str kv.2 +:+ "&") d))) /\
  (d = sample_token ->
   fst (oauth_callback code w (serving w tr))
   = Ok (redirect_page "/show-data/?access_token=abc&token_type=bearer&")) /\
  (d = mixed_token ->
   fst (oauth_callback code w (serving w tr))
   = Ok (redirect_page
           ("/show-data/?access_token=a b&c&expires_in=3600&refresh_token=None&ok=True&ratio=0.5&scopes=['openid', '\xa0', -1]&extra={"
              +:+ dq +:+ "it's" +:+ dq +:+ ": False}&"))) /\
  (py_str PNone = "None" /\ py_str (PBool true) = "True" /\
   py_str (PBool false) = "False" /\
   (forall n : Z, py_str (PInt n) = pretty n) /\
   (forall text : string, py_str (PStr text) = text)).
Proof.
  intros Hr. rewrite callback_served, Hr. cbn [fst callback_outcome].
  split; [reflexivity |].
  split; [intros ->; reflexivity |].
  split; [intros ->; vm_compute; reflexivity |].
  repeat split.
Qed.

Lemma callback_query_string_witness :
  fst (oauth_callback "code" (answering (Responds (Decodes (PDict sample_token))))
         (serving (answering (Responds (Decodes (PDict sample_token)))) []))
  = Ok (redirect_page "/show-data/?access_token=abc&token_type=bearer&") /\
  fst (oauth_callback "code" (answering (Responds (Decodes (PDict mixed_token))))
         (serving (answering (Responds (Decodes (PDict mixed_token)))) []))
  = Ok (redirect_page
          ("/show-data/?access_token=a b&c&expires_in=3600&refresh_token=None&ok=True&ratio=0.5&scopes=['openid', '\xa0', -1]&extra={"
             +:+ dq +:+ "it's" +:+ dq +:+ ": False}&")).
Proof.
  split.
  - apply (proj1 (proj2 (callback_query_string
                           (answering (Responds (Decodes (PDict sample_token)))) []
                           "code" sample_token eq_refl))).
    reflexivity.
  - apply (proj1 (proj2 (proj2 (callback_query_string
                                  (answering (Responds (Decodes (PDict mixed_token)))) []
                                  "code" mixed_token eq_refl)))).
    reflexivity.
Defined.

(** C6.  For every authorization code the callback handler issues exactly
    one call, whatever the reply: a POST to the configured token URL, with
    HTTP Basic authentication by the configured client id and client secret,
    with the form fields [grant_type=authorization_code], [code] (the code
    received) and [redirect_uri] (the configured callback URL) and no other,
    under the fixed timeout of ten seconds. *)
Theorem callback_token_request w tr code :
  exists url client_id client_secret callback,
    CONFIG (serving w tr) !! "TOKEN_URL" = Some url /\
    CONFIG (serving w tr) !! "RSO_CLIENT_ID" = Some client_id /\
    CONFIG (serving w tr) !! "RSO_CLIENT_SECRET" = Some client_secret /\
    CONFIG (serving w tr) !! "APP_CALLBACK_URL" = Some callback /\
    calls (snd (oauth_callback code w (serving w tr)))
    = (tr ++ [POST url {| username := client_id; password := client_secret |}
                   [("grant_type", PStr "authorization_code");
                    ("code", PStr code);
                    ("redirect_uri", callback)]
                   TIMEOUT])%list /\
    TIMEOUT = 10.
Proof.
  pose proof (serving_resolved w tr) as Hcfg.
  exists (PStr (token_url (environ w))), (env_value (environ w) "RSO_CLIENT_ID"),
    (env_value (environ w) "RSO_CLIENT_SECRET"), (PStr (callback_url (environ w))).
  rewrite callback_served. cbn [snd calls].
  repeat split;
    try (apply (resolved_setting _ _ _ Hcfg); unfold settings; cbn; tauto);
    apply Hcfg.
Qed.

(** C10.  The callback handler encodes nothing: each item of the token
    object goes into the redirect target as the text of its key, [=], the
    text of its value and [&], verbatim, between the pieces of the items
    before it and after it.  A key or a value that holds [&], [=], [?] or a
    space therefore stands unencoded in the target; so do the brackets,
    quotes, commas and spaces of a value that is a list or an object, shown
    as [str] shows it. *)
Theorem callback_no_url_encoding w tr code before key value after :
  network w tr (token_call_of (environ w) code)
  = Responds (Decodes (PDict (before ++ (key, value) :: after))) ->
  fst (oauth_callback code w (serving w tr))
  = Ok (redirect_page
          ("/show-data/?" +:+ query before
             +:+ key +:+ "=" +:+ py_str value +:+ "&" +:+ query after)) /\
  (forall text, value = PStr text -> py_str value = text) /\
  (py_str (PStr "c=d ?e&f") = "c=d ?e&f" /\
   py_str (PList [PStr "c=d ?e"; PStr nbsp; PInt 7; PNone]) = "['c=d ?e', '\xa0', 7, None]" /\
   py_str (PDict [("a&b", PBool true)]) = "{'a&b': True}" /\
   py_str (PInt (-3600)) = "-3600" /\
   py_str PNone = "None" /\ py_str (PBool false) = "False").
Proof.
  intros Hr. rewrite callback_served, Hr. cbn [fst callback_outcome].
  split; [| split; [by intros text -> | repeat split]].
  rewrite query_app, query_cons. unfold fragment. cbn [fst snd].
  by rewrite !append_assoc.
Qed.

Lemma callback_no_url_encoding_witness :
  fst (oauth_callback "code"
         (answering (Responds (Decodes (PDict [("a&b", PStr "c=d ?e")]))))
         (serving (answering (Responds (Decodes (PDict [("a&b", PStr "c=d ?e")])))) []))
  = Ok (redirect_page "/show-data/?a&b=c=d ?e&") /\
  fst (oauth_callback "code"
         (answering (Responds (Decodes (PDict [("k", PList [PStr "c=d ?e"; PStr nbsp])]))))
         (serving (answering (Responds (Decodes
                                          (PDict [("k", PList [PStr "c=d ?e"; PStr nbsp])]))))
                  []))
  = Ok (redirect_page "/show-data/?k=['c=d ?e', '\xa0']&").
Proof.
  split.
  - apply (proj1 (callback_no_url_encoding
                    (answering (Responds (Decodes (PDict [("a&b", PStr "c=d ?e")]))))
                    [] "code" [] "a&b" (PStr "c=d ?e") [] eq_refl)).
  - apply (proj1 (callback_no_url_encoding
                    (answering (Responds (Decodes
                                            (PDict [("k", PList [PStr "c=d ?e"; PStr nbsp])]))))
                    [] "code" [] "k" (PList [PStr "c=d ?e"; PStr nbsp]) [] eq_refl)).
Defined.

(** C3.  Startup succeeds, and the sign-in URL it leaves is the authorize URL
    followed by the query string with the four parameters, in this order:
    [redirect_uri], the derived callback URL; [client_id], the configured
    RSO client id; [response_type], from RESPONSE_TYPE; [scope], from
    SCOPE. *)
Theorem sign_in_url_parameters w :
  exists cfg authorize callback client_id response_type scope,
    startup w boot = (Ok tt, {| CONFIG := cfg; calls := [] |}) /\
    cfg !! "AUTHORIZE_URL" = Some (PStr authorize) /\
    cfg !! "APP_CALLBACK_URL" = Some (PStr callback) /\
    cfg !! "RSO_CLIENT_ID" = Some client_id /\
    cfg !! "RESPONSE_TYPE" = Some response_type /\
    cfg !! "SCOPE" = Some scope /\
    cfg !! "SIGN_IN_URL"
    = Some (PStr (authorize
                    +:+ "?redirect_uri=" +:+ callback
                    +:+ "&client_id=" +:+ py_str client_id
                    +:+ "&response_type=" +:+ py_str response_type
                    +:+ "&scope=" +:+ py_str scope)).
Proof.
  destruct (startup_resolves w) as (cfg & Hrun & Hcfg).
  exists cfg, (authorize_url (environ w)), (callback_url (environ w)),
    (env_value (environ w) "RSO_CLIENT_ID"), (env_value (environ w) "RESPONSE_TYPE"),
    (env_value (environ w) "SCOPE").
  repeat split;
    try (apply (resolved_setting _ _ _ Hcfg); unfold settings; cbn; tauto);
    first [ exact Hrun | apply Hcfg ].
Qed.

(** C4.  For every JSON object [json2table] returns the style sheet, the
    table head, one row per item of the object in iteration order, and the
    table foot; a row holds the key and the text of the value, as [str]
    shows it, as they are: nothing is escaped.  A value that is no text is
    shown as Python prints it. *)
Theorem json2table_rows (d : list (string * pyval)) w s :
  json2table (PDict d) w s
  = (Ok (table_style +:+ table_head
           +:+ join (map (fun kv => table_row kv.1 (py_str kv.2)) d)
           +:+ table_foot), s) /\
  length (map (fun kv => table_row kv.1 (py_str kv.2)) d) = length d /\
  (forall key text : string,
     table_row key (py_str (PStr text))
     = "
                <tr>
                    <td class=" +:+ dq +:+ "tg-0lax" +:+ dq +:+ ">" +:+ key +:+ "</td>
                    <td class=" +:+ dq +:+ "tg-0lax" +:+ dq +:+ ">" +:+ text +:+ "<br></td>
                </tr>") /\
  json2table (PDict (("name", PStr "<b>&amp;</b>") :: mixed_token)) w s
  = (Ok (table_style +:+ table_head
           +:+ table_row "name" "<b>&amp;</b>"
           +:+ table_row "access_token" "a b&c"
           +:+ table_row "expires_in" "3600"
           +:+ table_row "refresh_token" "None"
           +:+ table_row "ok" "True"
           +:+ table_row "ratio" "0.5"
           +:+ table_row "scopes" "['openid', '\xa0', -1]"
           +:+ table_row "extra" ("{" +:+ dq +:+ "it's" +:+ dq +:+ ": False}")
           +:+ table_foot), s) /\
  (py_str PNone = "None" /\ py_str (PBool true) = "True" /\
   py_str (PBool false) = "False" /\
   (forall n : Z, py_str (PInt n) = pretty n)).
Proof.
  split; [| split; [| split; [| split]]].
  - by rewrite json2table_run.
  - apply length_map.
  - reflexivity.
  - rewrite json2table_run. vm_compute. reflexivity.
  - repeat split.
Qed.

(** C7.  The login handler reads nothing of the request and calls nothing:
    in every serving state, under every network, it returns the same page,
    whose link leads to the sign-in URL that startup computed; it never
    raises and leaves the state as it was. *)
Theorem login_page_fixed w :
  exists url,
    CONFIG (serving w []) !! "SIGN_IN_URL" = Some (PStr url) /\
    forall net tr,
      login {| environ := environ w; network := net |} (serving w tr)
      = (Ok ("
    <h1>login</h1>
    <a href=" +:+ dq +:+ url +:+ dq +:+ ">Sign In --> " +:+ url +:+ "</a>
    "), serving w tr).
Proof.
  exists (sign_in_url (environ w)). split.
  - apply (serving_resolved w []).
  - intros net tr. apply login_run, serving_resolved.
Qed.

(** C5 (as amended).  The display handler first issues the account lookup,
    a GET with the header [Authorization: Bearer <access_token>] and no
    other; when that lookup yields a JSON object, and only then, it issues
    one more call, the champion-rotation lookup, a GET with the header
    [X-Riot-Token: <static token>] and no other, the token being the
    configured RGAPI token.  When the account lookup gets no reply, a body
    that is no JSON or a value that is no object, the account lookup is the
    only call.  So the handler issues two calls whenever it returns a page,
    and never a third; neither call carries the other's credential. *)
Theorem show_data_calls w tr access_token :
  exists static,
    CONFIG (serving w tr) !! "RGAPI_TOKEN" = Some static /\
    let first :=
      GET "https://americas.api.riotgames.com/riot/account/v1/accounts/me"
          [("Authorization", PStr ("Bearer " +:+ access_token))] TIMEOUT in
    let second :=
      GET "https://na1.api.riotgames.com/lol/platform/v3/champion-rotations"
          [("X-Riot-Token", static)] TIMEOUT in
    let out := show_data access_token w (serving w tr) in
    (calls (snd out) = (tr ++ [first])%list \/
     calls (snd out) = (tr ++ [first; second])%list) /\
    (forall d, network w tr first = Responds (Decodes (PDict d)) ->
               calls (snd out) = (tr ++ [first; second])%list) /\
    (forall page, fst out = Ok page ->
                  calls (snd out) = (tr ++ [first; second])%list) /\
    ((forall d, network w tr first <> Responds (Decodes (PDict d))) ->
     calls (snd out) = (tr ++ [first])%list /\ exists ex, fst out = Raise ex) /\
    (network w tr first = Fails ->
     calls (snd out) = (tr ++ [first])%list /\ fst out = Raise RequestException) /\
    (forall text, network w tr first = Responds (Undecodable text) ->
     calls (snd out) = (tr ++ [first])%list /\ fst out = Raise JSONDecodeError) /\
    (forall v, network w tr first = Responds (Decodes v) ->
               (forall d, v <> PDict d) ->
     calls (snd out) = (tr ++ [first])%list /\ fst out = Raise (AttributeError "items")).
Proof.
  pose proof (serving_resolved w tr) as Hcfg.
  exists (env_value (environ w) "RGAPI_TOKEN"). split.
  { apply (resolved_setting _ _ _ Hcfg). unfold settings. cbn. tauto. }
  intros first second out. subst out.
  rewrite (show_data_run _ _ _ access_token Hcfg), serving_calls.
  change (account_call access_token) with first.
  change (rotation_call (env_value (environ w) "RGAPI_TOKEN")) with second.
  rewrite <- (app_assoc tr [first] [second]).
  destruct (network w tr first) as [|[text|v]]; cbn [table_outcome fst snd calls];
    [| | destruct v; cbn [fst snd calls]];
    repeat match goal with |- _ /\ _ => split end;
    first
      [ by left
      | by right
      | intros; discriminate
      | intros H; by destruct (H _ eq_refl)
      | intros ? [= <-] H; by destruct (H _ eq_refl)
      | intros; split; first [reflexivity | by eexists]
      | reflexivity ].
Qed.

Lemma show_data_calls_witness :
  calls (snd (show_data "token" (answering (Responds (Decodes (PDict sample_token))))
                (serving (answering (Responds (Decodes (PDict sample_token)))) [])))
  = [GET "https://americas.api.riotgames.com/riot/account/v1/accounts/me"
         [("Authorization", PStr "Bearer token")] TIMEOUT;
     GET "https://na1.api.riotgames.com/lol/platform/v3/champion-rotations"
         [("X-Riot-Token", PStr "RGAPI-sample")] TIMEOUT].
Proof.
  destruct (show_data_calls (answering (Responds (Decodes (PDict sample_token))))
              [] "token") as (static & Hstatic & _ & Hobject & _).
  assert (static = PStr "RGAPI-sample") as ->.
  { pose proof (resolved_setting _ _ "RGAPI_TOKEN"
                  (serving_resolved (answering (Responds (Decodes (PDict sample_token)))) [])) as H.
    rewrite H in Hstatic; [| unfold settings; cbn; tauto].
    symmetry. by injection Hstatic. }
  exact (Hobject sample_token eq_refl).
Defined.

(** C5 as stated fails: when the account lookup gets no reply, the display
    handler has issued one call only. *)
Lemma show_data_single_call :
  calls (snd (show_data "token" (answering Fails) (serving (answering Fails) [])))
  = [GET "https://americas.api.riotgames.com/riot/account/v1/accounts/me"
         [("Authorization", PStr "Bearer token")] TIMEOUT] /\
  fst (show_data "token" (answering Fails) (serving (answering Fails) []))
  = Raise RequestException /\
  length (calls (snd (show_data "token" (answering Fails)
                        (serving (answering Fails) [])))) = 1%nat.
Proof.
  rewrite (show_data_run _ _ _ "token" (serving_resolved (answering Fails) [])).
  repeat split.
Qed.

(** C8.  Startup resolves the configuration once: it never raises, every
    setting is read, and the derived entries are concatenations, the token
    URL of RSO_BASE_URL and [/token], the callback URL of APP_BASE_URL and
    APP_CALLBACK_PATH, the authorize URL of RSO_BASE_URL and [/authorize],
    the sign-in URL of the authorize URL and the query parameters.  No
    handler writes the configuration: after login, callback or display, in
    any world and whatever the outcome, every entry is as startup left it. *)
Theorem configuration_resolved_then_fixed w :
  exists cfg base app path client_id response_type scope,
    startup w boot = (Ok tt, {| CONFIG := cfg; calls := [] |}) /\
    Forall (fun name => is_Some (cfg !! name)) settings /\
    (cfg !! "RSO_BASE_URL" = Some base /\
     cfg !! "APP_BASE_URL" = Some app /\
     cfg !! "APP_CALLBACK_PATH" = Some path /\
     cfg !! "RSO_CLIENT_ID" = Some client_id /\
     cfg !! "RESPONSE_TYPE" = Some response_type /\
     cfg !! "SCOPE" = Some scope) /\
    (cfg !! "TOKEN_URL" = Some (PStr (py_str base +:+ "/token")) /\
     cfg !! "APP_CALLBACK_URL" = Some (PStr (py_str app +:+ py_str path)) /\
     cfg !! "AUTHORIZE_URL" = Some (PStr (py_str base +:+ "/authorize")) /\
     cfg !! "SIGN_IN_URL"
     = Some (PStr ((py_str base +:+ "/authorize")
                     +:+ "?redirect_uri=" +:+ (py_str app +:+ py_str path)
                     +:+ "&client_id=" +:+ py_str client_id
                     +:+ "&response_type=" +:+ py_str response_type
                     +:+ "&scope=" +:+ py_str scope))) /\
    (forall text : string, py_str (PStr text) = text) /\
    (forall w' tr code access_token,
       CONFIG (snd (login w' {| CONFIG := cfg; calls := tr |})) = cfg /\
       CONFIG (snd (oauth_callback code w' {| CONFIG := cfg; calls := tr |})) = cfg /\
       CONFIG (snd (show_data access_token w' {| CONFIG := cfg; calls := tr |})) = cfg).
Proof.
  destruct (startup_resolves w) as (cfg & Hrun & Hcfg).
  pose proof (resolved_setting _ _ "RSO_BASE_URL" Hcfg) as Hbase.
  pose proof (resolved_setting _ _ "APP_BASE_URL" Hcfg) as Happ.
  pose proof (resolved_setting _ _ "APP_CALLBACK_PATH" Hcfg) as Hpath.
  pose proof (resolved_setting _ _ "RSO_CLIENT_ID" Hcfg) as Hid.
  pose proof (resolved_setting _ _ "RESPONSE_TYPE" Hcfg) as Htype.
  pose proof (resolved_setting _ _ "SCOPE" Hcfg) as Hscope.
  destruct Hcfg as (Hall & Htok & Hcb & Hauth & Hsign).
  exists cfg, (env_value (environ w) "RSO_BASE_URL"),
    (env_value (environ w) "APP_BASE_URL"), (env_value (environ w) "APP_CALLBACK_PATH"),
    (env_value (environ w) "RSO_CLIENT_ID"), (env_value (environ w) "RESPONSE_TYPE"),
    (env_value (environ w) "SCOPE").
  split; [exact Hrun |]. split.
  { eapply Forall_impl; [exact Hall |]. intros name ->. by eexists. }
  split.
  { repeat split; first [apply Hbase | apply Happ | apply Hpath | apply Hid
                        | apply Htype | apply Hscope]; unfold settings; cbn; tauto. }
  split.
  { repeat split; first [exact Htok | exact Hcb | exact Hauth | exact Hsign]. }
  split; [reflexivity |].
  intros w' tr code access_token. repeat split.
  - apply (keeps_login w' {| CONFIG := cfg; calls := tr |}).
  - apply (keeps_oauth_callback code w' {| CONFIG := cfg; calls := tr |}).
  - apply (keeps_show_data access_token w' {| CONFIG := cfg; calls := tr |}).
Qed.

(** Two environments that differ at most in CLIENT_ID give the same values
    to every other setting, hence the same derived texts. *)
Lemma env_value_agree (e1 e2 : gmap string string) name :
  (forall n, n <> "CLIENT_ID" -> e1 !! n = e2 !! n) ->
  name <> "CLIENT_ID" -> env_value e1 name = env_value e2 name.
Proof. intros H Hne. unfold env_value. by rewrite (H name Hne). Qed.

(** C9.  The CLIENT_ID setting is read into the configuration and used
    nowhere.  For two worlds with the same network whose environments differ
    at most in CLIENT_ID, the derived URLs are the same, the sign-in URL
    among them, and every handler gives the same outcome and issues the
    same calls on the same request. *)
Theorem client_id_noninterference w1 w2 :
  (forall name, name <> "CLIENT_ID" -> environ w1 !! name = environ w2 !! name) ->
  network w1 = network w2 ->
  forall tr code access_token,
    (CONFIG (serving w1 tr) !! "CLIENT_ID" = Some (env_value (environ w1) "CLIENT_ID") /\
     CONFIG (serving w2 tr) !! "CLIENT_ID" = Some (env_value (environ w2) "CLIENT_ID")) /\
    Forall (fun key => CONFIG (serving w1 tr) !! key = CONFIG (serving w2 tr) !! key)
           ["TOKEN_URL"; "APP_CALLBACK_URL"; "AUTHORIZE_URL"; "SIGN_IN_URL"] /\
    outcome (login w1 (serving w1 tr)) = outcome (login w2 (serving w2 tr)) /\
    outcome (oauth_callback code w1 (serving w1 tr))
    = outcome (oauth_callback code w2 (serving w2 tr)) /\
    outcome (show_data access_token w1 (serving w1 tr))
    = outcome (show_data access_token w2 (serving w2 tr)).
Proof.
  intros Henv Hnet tr code access_token.
  pose proof (serving_resolved w1 tr) as H1.
  pose proof (serving_resolved w2 tr) as H2.
  assert (Hv : forall name, name <> "CLIENT_ID" ->
                            env_value (environ w1) name = env_value (environ w2) name)
    by (intros name Hne; by apply env_value_agree).
  assert (Htok : token_url (environ w1) = token_url (environ w2))
    by (unfold token_url; by rewrite Hv).
  assert (Hcb : callback_url (environ w1) = callback_url (environ w2))
    by (unfold callback_url; by rewrite !Hv).
  assert (Hauth : authorize_url (environ w1) = authorize_url (environ w2))
    by (unfold authorize_url; by rewrite Hv).
  assert (Hsign : sign_in_url (environ w1) = sign_in_url (environ w2))
    by (unfold sign_in_url; by rewrite Hauth, Hcb, !Hv).
  assert (Hcall : token_call_of (environ w1) code = token_call_of (environ w2) code)
    by (unfold token_call_of; by rewrite Htok, Hcb, !Hv).
  unfold outcome. split; [| split; [| split; [| split]]].
  - split; [apply (resolved_setting _ _ _ H1) | apply (resolved_setting _ _ _ H2)];
      unfold settings; cbn; tauto.
  - destruct H1 as (_ & T1 & C1 & A1 & S1), H2 as (_ & T2 & C2 & A2 & S2).
    repeat constructor.
    + by rewrite T1, T2, Htok.
    + by rewrite C1, C2, Hcb.
    + by rewrite A1, A2, Hauth.
    + by rewrite S1, S2, Hsign.
  - by rewrite (login_run _ w1 _ H1), (login_run _ w2 _ H2), Hsign.
  - by rewrite !callback_served, Hcall, Hnet.
  - rewrite (show_data_run _ w1 _ access_token H1), (show_data_run _ w2 _ access_token H2).
    rewrite !serving_calls, Hnet, (Hv "RGAPI_TOKEN") by discriminate.
    destruct (table_outcome _) as [d1|ex]; [| done].
    by destruct (table_outcome _) as [d2|ex].
Qed.

Lemma client_id_noninterference_witness :
  outcome (oauth_callback "code"
             (world_of sample_environ (Responds (Decodes (PDict sample_token))))
             (serving (world_of sample_environ (Responds (Decodes (PDict sample_token)))) []))
  = outcome (oauth_callback "code"
               (world_of other_environ (Responds (Decodes (PDict sample_token))))
               (serving (world_of other_environ (Responds (Decodes (PDict sample_token)))) [])).
Proof.
  refine (proj1 (proj2 (proj2 (proj2
    (client_id_noninterference
       (world_of sample_environ (Responds (Decodes (PDict sample_token))))
       (world_of other_environ (Responds (Decodes (PDict sample_token))))
       _ eq_refl [] "code" "token"))))).
  intros name Hne. symmetry. apply lookup_insert_ne. congruence.
Defined.


(** ** Further properties of the handlers *)

(** Two environments that differ at most in one variable give the same
    value to every other one. *)
Lemma env_value_off (x : string) (e1 e2 : gmap string string) name :
  (forall n, n <> x -> e1 !! n = e2 !! n) ->
  name <> x -> env_value e1 name = env_value e2 name.
Proof. intros H Hne. unfold env_value. by rewrite (H name Hne). Qed.

(** A query string of at least one item ends with an ampersand. *)
Lemma query_ends d : d <> [] -> exists body, query d = body +:+ "&".
Proof.
  destruct d as [|kv d] using rev_ind; [congruence | intros _].
  exists (query d +:+ kv.1 +:+ "=" +:+ py_str kv.2).
  rewrite query_app. unfold query at 2. cbn [map join foldr]. unfold fragment.
  by rewrite append_empty_r, !append_assoc.
Qed.

(** X1.  When the token endpoint's body decodes to a JSON value that is
    neither null nor an object (a list, a text, a number, a boolean), the
    callback handler raises AttributeError from [.items()], after its one
    call, and returns no page. *)
Theorem callback_rejects_non_object w tr code v :
  network w tr (token_call_of (environ w) code) = Responds (Decodes v) ->
  v <> PNone ->
  (forall d, v <> PDict d) ->
  oauth_callback code w (serving w tr)
  = (Raise (AttributeError "items"),
     {| CONFIG := CONFIG (serving w tr);
        calls := tr ++ [token_call_of (environ w) code] |}).
Proof.
  intros Hr Hnone Hdict. rewrite callback_served, Hr.
  destruct v; try reflexivity; [congruence | by destruct (Hdict d)].
Qed.

Lemma callback_rejects_non_object_witness :
  fst (oauth_callback "code" (answering (Responds (Decodes (PList [PStr "abc"]))))
         (serving (answering (Responds (Decodes (PList [PStr "abc"])))) []))
  = Raise (AttributeError "items").
Proof.
  rewrite (callback_rejects_non_object
             (answering (Responds (Decodes (PList [PStr "abc"])))) [] "code"
             (PList [PStr "abc"]) eq_refl);
    [reflexivity | discriminate | intros d; discriminate].
Defined.

(** X2.  The callback handler returns a page exactly when the token
    endpoint replies with a body that decodes to null or to an object; in
    every other case it raises. *)
Theorem callback_page_iff w tr code :
  (exists page, fst (oauth_callback code w (serving w tr)) = Ok page) <->
  (network w tr (token_call_of (environ w) code) = Responds (Decodes PNone) \/
   exists d, network w tr (token_call_of (environ w) code) = Responds (Decodes (PDict d))).
Proof.
  rewrite callback_served. cbn [fst].
  destruct (network w tr (token_call_of (environ w) code)) as [|[text|v]].
  - split; [intros [page H]; discriminate | intros [H | [d H]]; discriminate].
  - split; [intros [page H]; discriminate | intros [H | [d H]]; discriminate].
  - destruct v; cbn [callback_outcome];
      (split;
       [ intros [page H]; first [ discriminate | by left | right; by eexists ]
       | intros [H | [d' H]]; first [ discriminate | by eexists ] ]).
Qed.

(** X3.  The trailing ampersand: for a token object with at least one item
    the redirect target of the callback handler ends in [&]. *)
Theorem callback_target_ends_with_ampersand w tr code d :
  network w tr (token_call_of (environ w) code) = Responds (Decodes (PDict d)) ->
  d <> [] ->
  exists body,
    fst (oauth_callback code w (serving w tr))
    = Ok (redirect_page ("/show-data/?" +:+ body +:+ "&")).
Proof.
  intros Hr Hd. destruct (query_ends d Hd) as [body Hbody].
  exists body. by rewrite callback_served, Hr; cbn [fst callback_outcome]; rewrite Hbody.
Qed.

Lemma callback_target_ends_with_ampersand_witness :
  exists body,
    fst (oauth_callback "code" (answering (Responds (Decodes (PDict sample_token))))
           (serving (answering (Responds (Decodes (PDict sample_token)))) []))
    = Ok (redirect_page ("/show-data/?" +:+ body +:+ "&")).
Proof.
  apply (callback_target_ends_with_ampersand
           (answering (Responds (Decodes (PDict sample_token)))) [] "code"
           sample_token eq_refl).
  discriminate.
Defined.

(** X4.  [json2table] on a value that is no object (null, a list, a text,
    a number) raises AttributeError from [.items()]; it issues no call and
    leaves the state as it was. *)
Theorem json2table_rejects_non_object v w s :
  (forall d, v <> PDict d) ->
  json2table v w s = (Raise (AttributeError "items"), s).
Proof.
  intros Hdict. rewrite json2table_run.
  destruct v; try reflexivity. by destruct (Hdict d).
Qed.

Lemma json2table_rejects_non_object_witness :
  json2table (PList [PInt 1; PInt 2]) (answering Fails) boot
  = (Raise (AttributeError "items"), boot).
Proof.
  apply (json2table_rejects_non_object (PList [PInt 1; PInt 2]) (answering Fails) boot).
  intros d. discriminate.
Defined.


(** X6.  When both lookups yield JSON objects, the display handler returns
    the page that holds the table of the account object and then the table
    of the champion-rotation object, each under its heading; the tables show
    every value as [str] shows it. *)
Theorem show_data_page w tr access_token d1 d2 :
  network w tr (account_call access_token) = Responds (Decodes (PDict d1)) ->
  network w (tr ++ [account_call access_token])
          (rotation_call (env_value (environ w) "RGAPI_TOKEN"))
  = Responds (Decodes (PDict d2)) ->
  fst (show_data access_token w (serving w tr))
  = Ok ("
        " +:+ ("
            <h2>account data queried using RSO Access Token:</h2>
            <p>" +:+ table_of d1 +:+ "</p>
        ") +:+ "
        " +:+ ("
            <h2>champion rotation data queried using RGAPI token</h2>
            <p>" +:+ table_of d2 +:+ "</p>
        ") +:+ "
    ") /\
  (forall d, table_of d
             = table_style +:+ table_head
                 +:+ join (map (fun kv => table_row kv.1 (py_str kv.2)) d)
                 +:+ table_foot) /\
  table_of [("freeChampionIds", PList [PInt 1; PInt 22; PInt 333]);
            ("maxNewPlayerLevel", PInt 10);
            ("gameName", PStr "<i>x</i>");
            ("tagLine", PNone);
            ("notes", PList [PStr nbsp; PStr "it's"])]
  = table_style +:+ table_head
      +:+ table_row "freeChampionIds" "[1, 22, 333]"
      +:+ table_row "maxNewPlayerLevel" "10"
      +:+ table_row "gameName" "<i>x</i>"
      +:+ table_row "tagLine" "None"
      +:+ table_row "notes" ("['\xa0', " +:+ dq +:+ "it's" +:+ dq +:+ "]")
      +:+ table_foot.
Proof.
  intros H1 H2.
  rewrite (show_data_run _ _ _ access_token (serving_resolved w tr)), serving_calls.
  rewrite H1; cbn [table_outcome]; rewrite H2.
  split; [reflexivity | split; [reflexivity | vm_compute; reflexivity]].
Qed.

Lemma show_data_page_witness :
  fst (show_data "token" (answering (Responds (Decodes (PDict mixed_token))))
         (serving (answering (Responds (Decodes (PDict mixed_token)))) []))
  = Ok (data_page (table_of mixed_token) (table_of mixed_token)).
Proof.
  apply (proj1 (show_data_page (answering (Responds (Decodes (PDict mixed_token)))) []
                  "token" mixed_token mixed_token eq_refl eq_refl)).
Defined.

(** X7.  The display handler returns a page exactly when both lookups yield
    JSON objects; a failure of either lookup leaves no partial page. *)
Theorem show_data_page_iff w tr access_token :
  (exists page, fst (show_data access_token w (serving w tr)) = Ok page) <->
  (exists d1 d2,
     network w tr (account_call access_token) = Responds (Decodes (PDict d1)) /\
     network w (tr ++ [account_call access_token])
             (rotation_call (env_value (environ w) "RGAPI_TOKEN"))
     = Responds (Decodes (PDict d2))).
Proof.
  rewrite (show_data_run _ _ _ access_token (serving_resolved w tr)), serving_calls.
  assert (Hobj : forall r, (exists d, table_outcome r = Ok d) <->
                           (exists d, r = Responds (Decodes (PDict d)))).
  { intros [|[text|v]]; cbn; try (split; intros [d H]; discriminate).
    destruct v; cbn; try (split; intros [d' H]; discriminate).
    split; intros _; by eexists. }
  split.
  - intros [page H].
    destruct (table_outcome (network w tr _)) as [d1|ex] eqn:E1; [| discriminate H].
    destruct (table_outcome (network w (tr ++ _) _)) as [d2|ex] eqn:E2;
      [| discriminate H].
    destruct (proj1 (Hobj _) (ex_intro _ d1 E1)) as [d1' H1].
    destruct (proj1 (Hobj _) (ex_intro _ d2 E2)) as [d2' H2]. eauto.
  - intros (d1 & d2 & H1 & H2). rewrite H1. cbn [table_outcome]. rewrite H2.
    by eexists.
Qed.

(** X8.  The two legs of the sign-on agree: the [redirect_uri] form field of
    the token request is the callback URL that stands as [redirect_uri] in
    the sign-in URL, and the user name of its Basic authentication is the
    client id that stands as [client_id] there. *)
Theorem token_request_matches_sign_in_url w tr code :
  exists authorize callback client_id rest url secret,
    CONFIG (serving w tr) !! "SIGN_IN_URL"
    = Some (PStr (authorize +:+ "?redirect_uri=" +:+ callback
                    +:+ "&client_id=" +:+ py_str client_id +:+ rest)) /\
    calls (snd (oauth_callback code w (serving w tr)))
    = (tr ++ [POST url {| username := client_id; password := secret |}
                   [("grant_type", PStr "authorization_code");
                    ("code", PStr code);
                    ("redirect_uri", PStr callback)]
                   TIMEOUT])%list.
Proof.
  exists (authorize_url (environ w)), (callback_url (environ w)),
    (env_value (environ w) "RSO_CLIENT_ID"),
    ("&response_type=" +:+ py_str (env_value (environ w) "RESPONSE_TYPE")
       +:+ "&scope=" +:+ py_str (env_value (environ w) "SCOPE")),
    (PStr (token_url (environ w))), (env_value (environ w) "RSO_CLIENT_SECRET").
  split.
  - apply (serving_resolved w tr).
  - by rewrite callback_served.
Qed.

(** X9.  Every call that a handler issues carries the fixed timeout of ten
    seconds: the login handler issues none, and all the calls that the
    callback handler and the display handler add have it. *)
Theorem handler_calls_have_timeout w tr code access_token :
  exists posted fetched,
    calls (snd (login w (serving w tr))) = tr /\
    calls (snd (oauth_callback code w (serving w tr))) = (tr ++ posted)%list /\
    calls (snd (show_data access_token w (serving w tr))) = (tr ++ fetched)%list /\
    Forall (fun c => timeout_of c = 10) (posted ++ fetched).
Proof.
  pose proof (serving_resolved w tr) as Hcfg.
  rewrite (login_run _ _ _ Hcfg), callback_served,
    (show_data_run _ _ _ access_token Hcfg), serving_calls.
  destruct (table_outcome (network w tr (account_call access_token))) as [d1|ex].
  - eexists [_], [_; _]. cbn [snd calls].
    rewrite <- (app_assoc tr [_] [_]).
    repeat split. by repeat constructor.
  - eexists [_], [_]. cbn [snd calls]. repeat split. by repeat constructor.
Qed.



(** X12.  When the settings it is built from are all set, the sign-in URL is
    the plain concatenation of their texts with the fixed separators:
    nothing is URL-encoded, the callback URL stands in [redirect_uri] with
    its own [:], [/], [?] or [&]. *)
Theorem sign_in_url_verbatim w tr base app path client_id response_type scope :
  environ w !! "RSO_BASE_URL" = Some base ->
  environ w !! "APP_BASE_URL" = Some app ->
  environ w !! "APP_CALLBACK_PATH" = Some path ->
  environ w !! "RSO_CLIENT_ID" = Some client_id ->
  environ w !! "RESPONSE_TYPE" = Some response_type ->
  environ w !! "SCOPE" = Some scope ->
  CONFIG (serving w tr) !! "SIGN_IN_URL"
  = Some (PStr (base +:+ "/authorize?redirect_uri=" +:+ app +:+ path
                  +:+ "&client_id=" +:+ client_id
                  +:+ "&response_type=" +:+ response_type
                  +:+ "&scope=" +:+ scope)).
Proof.
  intros Hbase Happ Hpath Hid Htype Hscope.
  destruct (serving_resolved w tr) as (_ & _ & _ & _ & Hsign).
  rewrite Hsign. unfold sign_in_url, authorize_url, callback_url, env_value.
  rewrite Hbase, Happ, Hpath, Hid, Htype, Hscope. cbn [py_str].
  by rewrite !append_assoc.
Qed.

Lemma sign_in_url_verbatim_witness :
  CONFIG (serving (answering Fails) []) !! "SIGN_IN_URL"
  = Some (PStr ("https://auth.riotgames.com" +:+ "/authorize?redirect_uri="
                  +:+ "http://localhost:3000" +:+ "/oauth-callback"
                  +:+ "&client_id=" +:+ "sample-client"
                  +:+ "&response_type=" +:+ "code"
                  +:+ "&scope=" +:+ "openid")).
Proof.
  apply (sign_in_url_verbatim (answering Fails) []); reflexivity.
Defined.

(** X13.  The client secret goes nowhere but into the token request.  For
    two worlds with the same network whose environments differ at most in
    RSO_CLIENT_SECRET, the sign-in URL is the same, and the login handler and
    the display handler give the same outcome and issue the same calls. *)
Theorem client_secret_confined w1 w2 :
  (forall name, name <> "RSO_CLIENT_SECRET" -> environ w1 !! name = environ w2 !! name) ->
  network w1 = network w2 ->
  forall tr access_token,
    CONFIG (serving w1 tr) !! "SIGN_IN_URL" = CONFIG (serving w2 tr) !! "SIGN_IN_URL" /\
    outcome (login w1 (serving w1 tr)) = outcome (login w2 (serving w2 tr)) /\
    outcome (show_data access_token w1 (serving w1 tr))
    = outcome (show_data access_token w2 (serving w2 tr)).
Proof.
  intros Henv Hnet tr access_token.
  pose proof (serving_resolved w1 tr) as H1.
  pose proof (serving_resolved w2 tr) as H2.
  assert (Hv : forall name, name <> "RSO_CLIENT_SECRET" ->
                            env_value (environ w1) name = env_value (environ w2) name)
    by (intros name Hne; by apply (env_value_off "RSO_CLIENT_SECRET")).
  assert (Hsign : sign_in_url (environ w1) = sign_in_url (environ w2))
    by (unfold sign_in_url, authorize_url, callback_url; by rewrite !Hv).
  unfold outcome. split; [| split].
  - destruct H1 as (_ & _ & _ & _ & S1), H2 as (_ & _ & _ & _ & S2).
    by rewrite S1, S2, Hsign.
  - by rewrite (login_run _ w1 _ H1), (login_run _ w2 _ H2), Hsign.
  - rewrite (show_data_run _ w1 _ access_token H1), (show_data_run _ w2 _ access_token H2).
    rewrite !serving_calls, Hnet, (Hv "RGAPI_TOKEN") by discriminate.
    destruct (table_outcome _) as [d1|ex]; [| done].
    by destruct (table_outcome _) as [d2|ex].
Qed.

Lemma client_secret_confined_witness :
  outcome (show_data "token"
             (world_of sample_environ (Responds (Decodes (PDict sample_token))))
             (serving (world_of sample_environ (Responds (Decodes (PDict sample_token)))) []))
  = outcome (show_data "token"
               (world_of other_secret_environ
                         (Responds (Decodes (PDict sample_token))))
               (serving (world_of other_secret_environ
                                  (Responds (Decodes (PDict sample_token)))) [])).
Proof.
  refine (proj2 (proj2
    (client_secret_confined
       (world_of sample_environ (Responds (Decodes (PDict sample_token))))
       (world_of other_secret_environ
                 (Responds (Decodes (PDict sample_token))))
       _ eq_refl [] "token"))).
  intros name Hne. symmetry. apply lookup_insert_ne. congruence.
Defined.

(** X14.  The static API token goes nowhere but into the champion-rotation
    lookup.  For two worlds with the same network whose environments differ
    at most in RGAPI_TOKEN, the login handler and the callback handler give
    the same outcome and issue the same calls, and the account lookup of the
    display handler is the same call. *)
Theorem static_token_confined w1 w2 :
  (forall name, name <> "RGAPI_TOKEN" -> environ w1 !! name = environ w2 !! name) ->
  network w1 = network w2 ->
  forall tr code access_token,
    outcome (login w1 (serving w1 tr)) = outcome (login w2 (serving w2 tr)) /\
    outcome (oauth_callback code w1 (serving w1 tr))
    = outcome (oauth_callback code w2 (serving w2 tr)) /\
    head (drop (length tr) (calls (snd (show_data access_token w1 (serving w1 tr)))))
    = head (drop (length tr) (calls (snd (show_data access_token w2 (serving w2 tr))))).
Proof.
  intros Henv Hnet tr code access_token.
  pose proof (serving_resolved w1 tr) as H1.
  pose proof (serving_resolved w2 tr) as H2.
  assert (Hv : forall name, name <> "RGAPI_TOKEN" ->
                            env_value (environ w1) name = env_value (environ w2) name)
    by (intros name Hne; by apply (env_value_off "RGAPI_TOKEN")).
  assert (Hsign : sign_in_url (environ w1) = sign_in_url (environ w2))
    by (unfold sign_in_url, authorize_url, callback_url; by rewrite !Hv).
  assert (Hcall : token_call_of (environ w1) code = token_call_of (environ w2) code)
    by (unfold token_call_of, token_url, callback_url; by rewrite !Hv).
  unfold outcome. split; [| split].
  - by rewrite (login_run _ w1 _ H1), (login_run _ w2 _ H2), Hsign.
  - by rewrite !callback_served, Hcall, Hnet.
  - rewrite (show_data_run _ w1 _ access_token H1), (show_data_run _ w2 _ access_token H2).
    rewrite !serving_calls, Hnet.
    destruct (table_outcome _) as [d1|ex]; cbn [snd calls];
      rewrite <- ?(app_assoc tr [_] [_]), !drop_app_length; reflexivity.
Qed.

Lemma static_token_confined_witness :
  outcome (oauth_callback "code"
             (world_of sample_environ (Responds (Decodes (PDict sample_token))))
             (serving (world_of sample_environ (Responds (Decodes (PDict sample_token)))) []))
  = outcome (oauth_callback "code"
               (world_of other_token_environ
                         (Responds (Decodes (PDict sample_token))))
               (serving (world_of other_token_environ
                                  (Responds (Decodes (PDict sample_token)))) [])).
Proof.
  refine (proj1 (proj2
    (static_token_confined
       (world_of sample_environ (Responds (Decodes (PDict sample_token))))
       (world_of other_token_environ
                 (Responds (Decodes (PDict sample_token))))
       _ eq_refl [] "code" "token"))).
  intros name Hne. symmetry. apply lookup_insert_ne. congruence.
Defined.


(** X15.  After startup the configuration holds the nine settings and the
    four derived entries, and no other key. *)
Theorem configuration_entries w :
  exists cfg,
    startup w boot = (Ok tt, {| CONFIG := cfg; calls := [] |}) /\
    forall key, is_Some (cfg !! key) <-> In key (settings ++ derived).
Proof.
  eexists. split.
  - unfold startup. repeat step. reflexivity.
  - intros key. unfold dict. cbn [CONFIG calls fold_left fst snd].
    rewrite !lookup_insert_is_Some', lookup_empty.
    unfold settings, derived. cbn [app In].
    split; intros H; repeat (destruct H as [H | H]; [tauto |]); by destruct H.
Qed.

(** X16.  Requests can follow one another: every handler, whatever its
    outcome, leaves a state in which the next request is served, with the
    configuration of startup and the earlier calls followed by its own. *)
Theorem handlers_leave_serving_state w tr code access_token :
  snd (login w (serving w tr)) = serving w tr /\
  snd (oauth_callback code w (serving w tr))
  = serving w (tr ++ [token_call_of (environ w) code]) /\
  exists fetched,
    snd (show_data access_token w (serving w tr)) = serving w (tr ++ fetched).
Proof.
  pose proof (serving_resolved w tr) as Hcfg.
  rewrite (login_run _ _ _ Hcfg), callback_served,
    (show_data_run _ _ _ access_token Hcfg), serving_calls.
  repeat split.
  destruct (table_outcome (network w tr (account_call access_token))) as [d1|ex].
  - eexists [_; _]. cbn [snd]. by rewrite <- (app_assoc tr [_] [_]).
  - by eexists [_].
Qed.

(** X17.  The page of the callback handler is made of the token endpoint's
    reply alone: neither the authorization code nor any configuration entry
    goes into it.  Two requests whose token calls get the same reply get the
    same page or the same exception. *)
Theorem callback_page_from_reply_alone w1 w2 tr1 tr2 code1 code2 :
  network w1 tr1 (token_call_of (environ w1) code1)
  = network w2 tr2 (token_call_of (environ w2) code2) ->
  fst (oauth_callback code1 w1 (serving w1 tr1))
  = fst (oauth_callback code2 w2 (serving w2 tr2)).
Proof. intros Hr. by rewrite !callback_served, Hr. Qed.

Lemma callback_page_from_reply_alone_witness :
  fst (oauth_callback "first-code"
         (world_of sample_environ (Responds (Decodes (PDict sample_token))))
         (serving (world_of sample_environ (Responds (Decodes (PDict sample_token)))) []))
  = fst (oauth_callback "second-code"
           (world_of other_secret_environ (Responds (Decodes (PDict sample_token))))
           (serving (world_of other_secret_environ
                              (Responds (Decodes (PDict sample_token)))) [])).
Proof.
  apply (callback_page_from_reply_alone
           (world_of sample_environ (Responds (Decodes (PDict sample_token))))
           (world_of other_secret_environ (Responds (Decodes (PDict sample_token))))
           [] [] "first-code" "second-code").
  reflexivity.
Defined.
